(** * The [encodec] command line: pipeline selection and validation

    A shallow embedding of [encodec/__main__.py].  The file has four
    layers:

    - the part of [str] and [pathlib] that [main] relies on ([lower],
      [suffix], [stem], [with_name], [with_suffix], [parent]), as CPython
      has them up to 3.13;
    - a trace-and-exit monad in which [fatal], [check_output_exists],
      [check_clipping] and [main] are written statement by statement;
    - a flat reading of [main], proved equal to it, on which the traces are
      studied;
    - the properties of the driver: selection of the pipeline, order of the
      fatal checks, what runs before and after them.

    The codec, the audio adapter and the tensors live outside the module
    that is modelled; they are the fields of the class [Codec], total
    functions of their arguments.  Every call to one of them leaves an
    event in the trace.  Bandwidths are rationals; a sample magnitude is
    the exact value of a float32, and the clipping limit is 0.99 rounded
    as the comparison with a float32 tensor rounds it. *)

From Stdlib Require Import String Ascii List Bool Arith ZArith QArith Lia.
Import ListNotations.

Open Scope string_scope.

(* ===================================================================== *)
(** ** Strings *)
(* ===================================================================== *)

Module Str.

(** [str.lower] on one character.  Only the ASCII letters are folded; no
    character outside ASCII lowers to one of the letters of the three
    extensions the driver compares with. *)
Definition is_upper (c : ascii) : bool :=
  let n := nat_of_ascii c in (65 <=? n)%nat && (n <=? 90)%nat.

Definition lower_ascii (c : ascii) : ascii :=
  if is_upper c then ascii_of_nat (nat_of_ascii c + 32) else c.

Fixpoint lower (s : string) : string :=
  match s with
  | EmptyString => EmptyString
  | String c r => String (lower_ascii c) (lower r)
  end.

(** Comparison of two characters ignoring case, written without [lower]:
    the characters are equal, or one is an upper-case letter and the other
    its lower-case form. *)
Definition same_letter (c d : ascii) : bool :=
  Ascii.eqb c d
  || (is_upper c && (nat_of_ascii d =? nat_of_ascii c + 32)%nat)
  || (is_upper d && (nat_of_ascii c =? nat_of_ascii d + 32)%nat).

(** Case-insensitive comparison of two strings, character by character. *)
Fixpoint eq_nocase (a b : string) : bool :=
  match a, b with
  | EmptyString, EmptyString => true
  | String c r, String d q => same_letter c d && eq_nocase r q
  | _, _ => false
  end.

(** [str.rfind('.')]: the index of the last dot. *)
Fixpoint rfind_dot (s : string) : option nat :=
  match s with
  | EmptyString => None
  | String c r =>
      match rfind_dot r with
      | Some i => Some (S i)
      | None => if Ascii.eqb c "." then Some 0%nat else None
      end
  end.

(** [x in s] for a character. *)
Fixpoint contains (c : ascii) (s : string) : bool :=
  match s with
  | EmptyString => false
  | String d r => Ascii.eqb c d || contains c r
  end.

(** [s[:n]] and [s[n:]]. *)
Fixpoint take (n : nat) (s : string) : string :=
  match n, s with
  | S k, String c r => String c (take k r)
  | _, _ => EmptyString
  end.

Fixpoint drop (n : nat) (s : string) : string :=
  match n, s with
  | S k, String _ r => drop k r
  | _, _ => s
  end.

(** Number of (possibly overlapping) places at which [pat] occurs in [s]. *)
Fixpoint occurrences (pat s : string) : nat :=
  match s with
  | EmptyString => if String.eqb pat "" then 1%nat else 0%nat
  | String _ r =>
      ((if String.prefix pat s then 1 else 0) + occurrences pat r)%nat
  end.

(** [s.endswith(e)]. *)
Definition ends_with (e s : string) : bool :=
  String.eqb (drop (String.length s - String.length e) s) e.

(** An extension: a dot followed by at least one character, none of them
    a dot. *)
Definition is_extension (e : string) : bool :=
  match e with
  | String c x =>
      Ascii.eqb c "." && negb (x =? "") && negb (contains "." x)
  | EmptyString => false
  end.

End Str.

(* ===================================================================== *)
(** ** Floating-point numbers *)
(* ===================================================================== *)

Module Float.

(** The nearest number with a significand of [p] bits, ties to even, of
    a positive rational in the normal range: first the exponent [e] with
    [2^e <= q < 2^(e+1)], then [q * 2^(p-1-e)] rounded to an integer. *)
Definition round_float (p : Z) (q : Q) : Q :=
  let n := Qnum q in
  let d := Zpos (Qden q) in
  let e0 := (Z.log2 n - Z.log2 d)%Z in
  let below :=
    if (0 <=? e0)%Z then (n <? d * 2 ^ e0)%Z else (n * 2 ^ (- e0) <? d)%Z in
  let e := if below then (e0 - 1)%Z else e0 in
  let s := (p - 1 - e)%Z in
  let num := if (0 <=? s)%Z then (n * 2 ^ s)%Z else n in
  let den := if (0 <=? s)%Z then d else (d * 2 ^ (- s))%Z in
  let fl := (num / den)%Z in
  let r := (num mod den)%Z in
  let m := if (2 * r <? den)%Z then fl
           else if (den <? 2 * r)%Z then (fl + 1)%Z
                else if Z.even fl then fl else (fl + 1)%Z in
  if (0 <=? s)%Z then m # Z.to_pos (2 ^ s)
  else (m * 2 ^ (- s))%Z # 1.

(** A decimal literal of Python is a double. *)
Definition float64 (q : Q) : Q := round_float 53 q.

(** A Python float cast to the dtype of a float32 tensor. *)
Definition float32 (q : Q) : Q := round_float 24 q.

End Float.

(* ===================================================================== *)
(** ** Paths *)
(* ===================================================================== *)

(** A [pathlib.Path] is its anchor and the list of its components; the
    name is the last component, empty for [Path(".")] and for the root. *)
Record Path : Type := mkPath { anchor : string; parts : list string }.

Module PathOps.

Definition name (p : Path) : string := last (parts p) "".

(** [PurePath.suffix]: the part of the name from its last dot on, unless
    that dot is the first or the last character of the name. *)
Definition suffix_of_name (n : string) : string :=
  match Str.rfind_dot n with
  | Some i =>
      if (0 <? i)%nat && (i <? String.length n - 1)%nat
      then Str.drop i n else ""
  | None => ""
  end.

(** [PurePath.stem]: the name without its suffix. *)
Definition stem_of_name (n : string) : string :=
  match Str.rfind_dot n with
  | Some i =>
      if (0 <? i)%nat && (i <? String.length n - 1)%nat
      then Str.take i n else n
  | None => n
  end.

Definition suffix (p : Path) : string := suffix_of_name (name p).
Definition stem (p : Path) : string := stem_of_name (name p).

(** [PurePath.parent]: the path without its last component; the anchor and
    the empty path are their own parents. *)
Definition parent (p : Path) : Path :=
  mkPath (anchor p) (removelast (parts p)).

(** What [with_name] accepts as a new name. *)
Definition valid_name (n : string) : bool :=
  negb (String.eqb n "") && negb (Str.contains "/" n) && negb (String.eqb n ".").

(** [PurePath.with_name]: [None] stands for the [ValueError] raised when
    the path has no name or the new name is not one component. *)
Definition with_name (p : Path) (n : string) : option Path :=
  if String.eqb (name p) "" then None
  else if valid_name n
       then Some (mkPath (anchor p) (removelast (parts p) ++ [n]))
       else None.

(** What [with_suffix] accepts as a new suffix. *)
Definition valid_suffix (s : string) : bool :=
  negb (Str.contains "/" s)
  && (String.eqb s ""
      || (String.prefix "." s && negb (String.eqb s "."))).

(** [PurePath.with_suffix]: the old suffix, if any, is cut off the name and
    the new one is appended; [None] stands for the [ValueError]. *)
Definition with_suffix (p : Path) (s : string) : option Path :=
  if negb (valid_suffix s) then None
  else if String.eqb (name p) "" then None
  else
    Some (mkPath (anchor p)
            (removelast (parts p) ++ [stem_of_name (name p) ++ s])).

End PathOps.

(* ===================================================================== *)
(** ** Command line, environment, effects *)
(* ===================================================================== *)

Definition SUFFIX : string := ".ecdc".

(** The namespace returned by [get_parser().parse_args()]. *)
Record Args : Type := mkArgs {
  input : Path;
  output : option Path;
  bandwidth : Q;
  hq : bool;
  lm : bool;
  force : bool;
  decompress_suffix : string;
  rescale : bool;
  gpu : bool;
  time : bool
}.

(** The values [--bandwidth] may take ([choices] of the parser). *)
Definition bandwidth_choices : list Q := [3 # 2; 3; 6; 12; 24]%Q.

(** The namespace of an invocation that gives only the positional
    arguments: every option at its default. *)
Definition default_args (i : Path) (o : option Path) : Args :=
  mkArgs i o 6 false false false "_decompressed" false false false.

(** [args.output = p]. *)
Definition set_output (a : Args) (p : Path) : Args :=
  mkArgs (input a) (Some p) (bandwidth a) (hq a) (lm a) (force a)
         (decompress_suffix a) (rescale a) (gpu a) (time a).

(** The same invocation with other values of [-b], [-q] and [-l]. *)
Definition set_codec_flags (a : Args) (b : Q) (q l : bool) : Args :=
  mkArgs (input a) (output a) b q l (force a)
         (decompress_suffix a) (rescale a) (gpu a) (time a).

(** What the process finds around it: which paths exist, whether CUDA is
    available, and what [time.time()] answers on its n-th call. *)
Record World : Type := mkWorld {
  path_exists : Path -> bool;
  cuda_is_available : bool;
  clock : nat -> Q
}.

Inductive Device : Type := Cpu | Cuda.

Inductive exn : Type := ValueError | AttributeError | AssertionError.

(** The lines the driver prints: each constructor is one format string of
    the source with the values it interpolates. *)
Inductive message : Type :=
| Input_missing (p : Path)
    (* Input file {args.input} does not exist. *)
| Output_folder_missing (p : Path)
    (* Output folder for {args.output} does not exist. *)
| Output_exists (p : Path)
    (* Output file {args.output} exist. Use -f / --force to overwrite. *)
| Output_ext_wav
    (* Output extension must be .wav *)
| Output_ext_compress (sfx : string)
    (* Output extension must be .wav, .pt or {SUFFIX} *)
| Bandwidth_unsupported (b : Q) (model_name : string)
    (* Bandwidth {args.bandwidth} is not supported by the model {model_name} *)
| Clipping (mx limit : Q)
    (* Clipping!! max scale {mx}, limit is {limit}. To avoid clipping, ... *)
| Time_elapsed (dt b : Q) (q l : bool) (d : Device).
    (* Time elapsed: {end - start} seconds for b=..., hq=..., lm=..., device=... *)

(** How a computation ends: with a value, through [sys.exit], or with an
    exception nobody catches. *)
Inductive result (A : Type) : Type :=
| Ok (a : A)
| Exit (code : Z)
| Raise (e : exn).

Arguments Ok {A} a.
Arguments Exit {A} code.
Arguments Raise {A} e.

(** The status the process reports to its caller. *)
Definition exit_status {A} (r : result A) : Z :=
  match r with
  | Ok _ => 0
  | Exit c => c
  | Raise _ => 1
  end.

(** [x in xs] for floats. *)
Definition bandwidth_in (b : Q) (l : list Q) : bool := existsb (Qeq_bool b) l.

(** [x in xs] for strings. *)
Definition str_in (s : string) (l : list string) : bool :=
  existsb (String.eqb s) l.

(* ===================================================================== *)
(** ** The plan of an invocation *)
(* ===================================================================== *)

(** What [main] decides from the arguments alone, written apart from the
    effects: which branch it takes and which output path it ends up
    with. *)
Module Plan.

(** The test of [main] on the extension of the input. *)
Definition is_decompress (args : Args) : bool :=
  Str.lower (PathOps.suffix (input args)) =? SUFFIX.

(** The value [main] assigns to [args.output] when none was given; [None]
    when [pathlib] raises. *)
Definition default_wav (args : Args) : option Path :=
  match PathOps.with_name (input args)
          (PathOps.stem (input args) ++ decompress_suffix args) with
  | Some p => PathOps.with_suffix p ".wav"
  | None => None
  end.

Definition default_ecdc (args : Args) : option Path :=
  PathOps.with_suffix (input args) SUFFIX.

Definition default_output (args : Args) : option Path :=
  if is_decompress args then default_wav args else default_ecdc args.

(** [args.output] as the pipeline sees it. *)
Definition effective_output (args : Args) : option Path :=
  match output args with
  | Some o => Some o
  | None => default_output args
  end.

(** The extensions an output may have, per branch. *)
Definition legal_extension (args : Args) (ext : string) : bool :=
  if is_decompress args then ext =? ".wav"
  else str_in ext [SUFFIX; ".wav"; ".pt"].

End Plan.

(** The collaborators of the driver.  Tensors, payloads and models are
    opaque to it; it only calls what is listed here. *)
Class Codec : Type := {
  Wav : Type;
  Payload : Type;
  Emb : Type;
  Model : Type;
  (* [.compress]: [MODELS], [compress], [decompress]; the attributes and
     methods of a model that [main] uses *)
  MODELS : string -> Model;
  target_bandwidths : Model -> list Q;
  set_target_bandwidth : Model -> Q -> Model;
  sample_rate : Model -> Z;
  channels : Model -> Z;
  encoder : Model -> Wav -> Emb;
  compress : Model -> Wav -> bool -> Device -> Payload;
  decompress : Payload -> Device -> Wav * Z;
  (* [.utils], [torchaudio] and [Path.read_bytes] *)
  convert_audio : Wav -> Z -> Z -> Z -> Wav;
  torchaudio_load : Path -> Wav * Z;
  read_bytes : Path -> Payload;
  (* tensor methods: [wav.abs().max()], [.cpu()], [.to(device)],
     [.unsqueeze(0)], [.squeeze(0).cpu()]; a waveform is a float32
     tensor with at least one sample, and [abs_max] is the exact value of
     its peak *)
  abs_max : Wav -> Q;
  cpu : Wav -> Wav;
  to_device : Wav -> Device -> Wav;
  unsqueeze0 : Wav -> Wav;
  squeeze0_cpu : Emb -> Emb
}.

Section Effects.

Context {C : Codec}.

(** One event per effect of the process, in the order they happen. *)
Inductive event : Type :=
| EStderr (m : message)
| EStdout (m : message)
| ETime
| ECudaQuery
| EExists (p : Path)
| EReadBytes (p : Path)
| EDecompress (b : Payload) (d : Device)
| EModelNew (model_name : string)
| ESetBandwidth (b : Q)
| ELoad (p : Path)
| EConvert (wav : Wav) (sr : Z) (target_sr target_channels : Z)
| ECompress (m : Model) (wav : Wav) (use_lm : bool) (d : Device)
| EEncoder (m : Model) (wav : Wav)
| EWriteBytes (p : Path) (b : Payload)
| ETorchSave (e : Emb) (p : option Path)
| ESaveAudio (wav : Wav) (p : option Path) (sr : Z) (rescale_ : bool).

Definition trace : Type := list event.

(** A computation: the events it caused and how it ended. *)
Definition M (A : Type) : Type := (trace * result A)%type.

Definition ret {A} (a : A) : M A := ([], Ok a).

Definition bind {A B} (m : M A) (f : A -> M B) : M B :=
  match m with
  | (t, Ok a) => let (t', r) := f a in ((t ++ t')%list, r)
  | (t, Exit c) => (t, Exit c)
  | (t, Raise e) => (t, Raise e)
  end.

Definition emit {A} (e : event) (a : A) : M A := ([e], Ok a).

Definition raise {A} (e : exn) : M A := ([], Raise e).

(** A [pathlib] call that may raise [ValueError]. *)
Definition or_value_error {A} (o : option A) : M A :=
  match o with
  | Some a => ret a
  | None => raise ValueError
  end.

(** An attribute of [args.output]: [AttributeError] when it is [None]. *)
Definition output_attr (args : Args) : M Path :=
  match output args with
  | Some p => ret p
  | None => raise AttributeError
  end.

End Effects.

Declare Scope driver_scope.
Delimit Scope driver_scope with drv.
Notation "x <- m ;; k" := (bind m (fun x => k))
  (at level 61, m at next level, right associativity) : driver_scope.
Notation "' pat <- m ;; k" := (bind m (fun x => match x with pat => k end))
  (at level 61, pat pattern, m at next level, right associativity)
  : driver_scope.
Notation "m ;; k" := (bind m (fun _ => k))
  (at level 61, right associativity) : driver_scope.

Section Driver.

Context {C : Codec}.
Variable w : World.

Local Open Scope driver_scope.

(** *** Effects of the standard library and of the collaborators *)

Definition print_stderr (m : message) : M unit := emit (EStderr m) tt.
Definition print_stdout (m : message) : M unit := emit (EStdout m) tt.
Definition sys_exit {A} (code : Z) : M A := ([], Exit code).
Definition time_time (n : nat) : M Q := emit ETime (clock w n).
Definition cuda_available : M bool := emit ECudaQuery (cuda_is_available w).
Definition exists_ (p : Path) : M bool := emit (EExists p) (path_exists w p).
Definition do_read_bytes (p : Path) : M Payload :=
  emit (EReadBytes p) (read_bytes p).
Definition do_decompress (b : Payload) (d : Device) : M (Wav * Z) :=
  emit (EDecompress b d) (decompress b d).
Definition new_model (model_name : string) : M Model :=
  emit (EModelNew model_name) (MODELS model_name).
Definition do_set_target_bandwidth (m : Model) (b : Q) : M Model :=
  emit (ESetBandwidth b) (set_target_bandwidth m b).
Definition do_load (p : Path) : M (Wav * Z) :=
  emit (ELoad p) (torchaudio_load p).
Definition do_convert_audio (wav : Wav) (sr tsr tch : Z) : M Wav :=
  emit (EConvert wav sr tsr tch) (convert_audio wav sr tsr tch).
Definition do_compress (m : Model) (wav : Wav) (use_lm : bool) (d : Device)
  : M Payload :=
  emit (ECompress m wav use_lm d) (compress m wav use_lm d).
Definition do_encoder (m : Model) (wav : Wav) : M Emb :=
  emit (EEncoder m wav) (encoder m wav).
Definition write_bytes (p : Path) (b : Payload) : M unit :=
  emit (EWriteBytes p b) tt.
Definition torch_save (e : Emb) (p : option Path) : M unit :=
  emit (ETorchSave e p) tt.
Definition save_audio (wav : Wav) (p : option Path) (sr : Z) (r : bool)
  : M unit :=
  emit (ESaveAudio wav p sr r) tt.

(** *** The functions of the module *)

Definition fatal {A} (m : message) : M A :=
  print_stderr m ;;
  sys_exit 1.

Definition check_output_exists (args : Args) : M unit :=
  o <- output_attr args ;;
  dir_ok <- exists_ (PathOps.parent o) ;;
  (if negb dir_ok then fatal (Output_folder_missing o) else ret tt) ;;
  o <- output_attr args ;;
  there <- exists_ o ;;
  if there && negb (force args) then fatal (Output_exists o) else ret tt.

(** [limit] as the comparison [mx > limit] takes it: [mx] is a float32
    tensor and torch casts the Python float to its dtype. *)
Definition limit_as_compared : Q :=
  Float.float32 (Float.float64 (99 # 100)).

Definition check_clipping (wav : Wav) (args : Args) : M unit :=
  if rescale args then ret tt
  else
    let mx := abs_max wav in
    let limit := (99 # 100)%Q in
    if negb (Qle_bool mx limit_as_compared)
    then print_stderr (Clipping mx limit)
    else ret tt.

(** The branch of [main] under the comment [# Decompression]. *)
Definition decompression (args : Args) (device : Device) : M unit :=
  args <- match output args with
          | None =>
              p <- or_value_error
                     (PathOps.with_name (input args)
                        (PathOps.stem (input args)
                         ++ decompress_suffix args)) ;;
              p <- or_value_error (PathOps.with_suffix p ".wav") ;;
              ret (set_output args p)
          | Some o =>
              if negb (Str.lower (PathOps.suffix o) =? ".wav")
              then fatal Output_ext_wav
              else ret args
          end ;;
  check_output_exists args ;;
  payload <- do_read_bytes (input args) ;;
  '(out, out_sample_rate) <- do_decompress payload device ;;
  check_clipping out args ;;
  let out := if gpu args then cpu out else out in
  save_audio out (output args) out_sample_rate (rescale args).

(** The branch of [main] under the comment [# Compression]. *)
Definition compression (args : Args) (device : Device) : M unit :=
  args <- match output args with
          | None =>
              p <- or_value_error (PathOps.with_suffix (input args) SUFFIX) ;;
              ret (set_output args p)
          | Some o =>
              if negb (str_in (Str.lower (PathOps.suffix o))
                              [SUFFIX; ".wav"; ".pt"])
              then fatal (Output_ext_compress SUFFIX)
              else ret args
          end ;;
  check_output_exists args ;;
  let model_name := if hq args then "encodec_48khz" else "encodec_24khz" in
  model <- new_model model_name ;;
  (if negb (bandwidth_in (bandwidth args) (target_bandwidths model))
   then fatal (Bandwidth_unsupported (bandwidth args) model_name)
   else ret tt) ;;
  model <- do_set_target_bandwidth model (bandwidth args) ;;
  '(wav, sr) <- do_load (input args) ;;
  wav <- do_convert_audio wav sr (sample_rate model) (channels model) ;;
  compressed <- do_compress model wav (lm args) device ;;
  o <- output_attr args ;;
  if Str.lower (PathOps.suffix o) =? SUFFIX then
    write_bytes o compressed
  else if Str.lower (PathOps.suffix o) =? ".pt" then
    emb <- do_encoder model (to_device (unsqueeze0 wav) device) ;;
    let emb := squeeze0_cpu emb in
    torch_save emb (output args)
  else
    (if Str.lower (PathOps.suffix o) =? ".wav"
     then ret tt else raise AssertionError) ;;
    '(out, out_sample_rate) <- do_decompress compressed device ;;
    check_clipping out args ;;
    let out := if gpu args then cpu out else out in
    save_audio out (output args) out_sample_rate (rescale args).

Definition main (args : Args) : M unit :=
  start <- (if time args then time_time 0 else ret 0%Q) ;;
  found <- exists_ (input args) ;;
  (if negb found then fatal (Input_missing (input args)) else ret tt) ;;
  device <- (if gpu args
             then (avail <- cuda_available ;;
                   ret (if avail then Cuda else Cpu))
             else ret Cpu) ;;
  (if Str.lower (PathOps.suffix (input args)) =? SUFFIX
   then decompression args device
   else compression args device) ;;
  if time args then
    end_ <- time_time 1 ;;
    print_stdout (Time_elapsed (end_ - start) (bandwidth args)
                               (hq args) (lm args) device)
  else ret tt.

(** [main] with a given pipeline in the place of the test on the input's
    extension and its two branches. *)
Definition main_with (body : Args -> Device -> M unit) (args : Args)
  : M unit :=
  start <- (if time args then time_time 0 else ret 0%Q) ;;
  found <- exists_ (input args) ;;
  (if negb found then fatal (Input_missing (input args)) else ret tt) ;;
  device <- (if gpu args
             then (avail <- cuda_available ;;
                   ret (if avail then Cuda else Cpu))
             else ret Cpu) ;;
  body args device ;;
  if time args then
    end_ <- time_time 1 ;;
    print_stdout (Time_elapsed (end_ - start) (bandwidth args)
                               (hq args) (lm args) device)
  else ret tt.

(** *** A flat reading of [main]

    The same computation with the binds carried out: which events a run
    leaves and how it ends, as a decision on the arguments and the
    world. *)

Definition device_of (args : Args) : Device :=
  if gpu args then (if cuda_is_available w then Cuda else Cpu) else Cpu.

(** The events up to the test on the extension, when the input exists. *)
Definition opening (args : Args) : trace :=
  ((if time args then [ETime] else [])
   ++ [EExists (input args)]
   ++ (if gpu args then [ECudaQuery] else []))%list.

(** The events after the pipeline. *)
Definition closing (args : Args) : trace :=
  if time args then
    [ETime;
     EStdout (Time_elapsed (clock w 1 - clock w 0) (bandwidth args)
                           (hq args) (lm args) (device_of args))]
  else [].

(** [check_output_exists] for the output [o], then [rest]. *)
Definition guarded (o : Path) (args : Args) (rest : M unit) : M unit :=
  if negb (path_exists w (PathOps.parent o)) then
    ([EExists (PathOps.parent o); EStderr (Output_folder_missing o)], Exit 1)
  else if path_exists w o && negb (force args) then
    ([EExists (PathOps.parent o); EExists o; EStderr (Output_exists o)],
     Exit 1)
  else
    ((EExists (PathOps.parent o) :: EExists o :: fst rest)%list, snd rest).

Definition clipping_lines (wav : Wav) (args : Args) : trace :=
  if rescale args then []
  else if negb (Qle_bool (abs_max wav) limit_as_compared)
       then [EStderr (Clipping (abs_max wav) (99 # 100))]
       else [].

(** Decoding [payload], the clipping check, and saving to [o]. *)
Definition playback (payload : Payload) (o : Path) (args : Args)
  (device : Device) : trace :=
  let out := fst (decompress payload device) in
  (EDecompress payload device
   :: clipping_lines out args
   ++ [ESaveAudio (if gpu args then cpu out else out) (Some o)
                  (snd (decompress payload device)) (rescale args)])%list.

Definition decode_stage (o : Path) (args : Args) (device : Device) : M unit :=
  ((EReadBytes (input args)
    :: playback (read_bytes (input args)) o args device)%list, Ok tt).

Definition decompression_flat (args : Args) (device : Device) : M unit :=
  match output args with
  | Some o =>
      if negb (Str.lower (PathOps.suffix o) =? ".wav")
      then ([EStderr Output_ext_wav], Exit 1)
      else guarded o args (decode_stage o args device)
  | None =>
      match Plan.default_wav args with
      | Some o => guarded o args (decode_stage o args device)
      | None => ([], Raise ValueError)
      end
  end.

Definition model_name_of (args : Args) : string :=
  if hq args then "encodec_48khz" else "encodec_24khz".

Definition encode_stage (o : Path) (args : Args) (device : Device) : M unit :=
  let model_name := model_name_of args in
  let model := MODELS model_name in
  if negb (bandwidth_in (bandwidth args) (target_bandwidths model)) then
    ([EModelNew model_name;
      EStderr (Bandwidth_unsupported (bandwidth args) model_name)], Exit 1)
  else
    let model := set_target_bandwidth model (bandwidth args) in
    let loaded := torchaudio_load (input args) in
    let wav := convert_audio (fst loaded) (snd loaded)
                 (sample_rate model) (channels model) in
    let compressed := compress model wav (lm args) device in
    let encoded :=
      [EModelNew model_name; ESetBandwidth (bandwidth args);
       ELoad (input args);
       EConvert (fst loaded) (snd loaded) (sample_rate model)
                (channels model);
       ECompress model wav (lm args) device] in
    if Str.lower (PathOps.suffix o) =? SUFFIX then
      ((encoded ++ [EWriteBytes o compressed])%list, Ok tt)
    else if Str.lower (PathOps.suffix o) =? ".pt" then
      let x := to_device (unsqueeze0 wav) device in
      ((encoded
        ++ [EEncoder model x;
            ETorchSave (squeeze0_cpu (encoder model x)) (Some o)])%list,
       Ok tt)
    else if Str.lower (PathOps.suffix o) =? ".wav" then
      ((encoded ++ playback compressed o args device)%list, Ok tt)
    else (encoded, Raise AssertionError).

Definition compression_flat (args : Args) (device : Device) : M unit :=
  match output args with
  | Some o =>
      if negb (str_in (Str.lower (PathOps.suffix o)) [SUFFIX; ".wav"; ".pt"])
      then ([EStderr (Output_ext_compress SUFFIX)], Exit 1)
      else guarded o args (encode_stage o args device)
  | None =>
      match Plan.default_ecdc args with
      | Some o => guarded o args (encode_stage o args device)
      | None => ([], Raise ValueError)
      end
  end.

Definition pipeline_flat (args : Args) : M unit :=
  if Plan.is_decompress args
  then decompression_flat args (device_of args)
  else compression_flat args (device_of args).

Definition main_flat (args : Args) : M unit :=
  if negb (path_exists w (input args)) then
    (((if time args then [ETime] else [])
      ++ [EExists (input args); EStderr (Input_missing (input args))])%list,
     Exit 1)
  else
    match snd (pipeline_flat args) with
    | Ok _ =>
        ((opening args ++ fst (pipeline_flat args) ++ closing args)%list,
         Ok tt)
    | r => ((opening args ++ fst (pipeline_flat args))%list, r)
    end.

(** *** Kinds of events *)

(** The contents of a file are read or written. *)
Definition touches_content (e : event) : bool :=
  match e with
  | EReadBytes _ | ELoad _ | EWriteBytes _ _ | ETorchSave _ _
  | ESaveAudio _ _ _ _ => true
  | _ => false
  end.

(** The contents of the input are read. *)
Definition reads_input (e : event) : bool :=
  match e with
  | EReadBytes _ | ELoad _ => true
  | _ => false
  end.

(** A file is created or modified. *)
Definition writes_file (e : event) : bool :=
  match e with
  | EWriteBytes _ _ | ETorchSave _ _ | ESaveAudio _ _ _ _ => true
  | _ => false
  end.

(** A model is built or configured, or the codec encodes or decodes. *)
Definition codec_operation (e : event) : bool :=
  match e with
  | EModelNew _ | ESetBandwidth _ | ECompress _ _ _ _ | EEncoder _ _
  | EDecompress _ _ => true
  | _ => false
  end.

(** The waveform is loaded, resampled or encoded. *)
Definition load_or_encode (e : event) : bool :=
  match e with
  | ELoad _ | EConvert _ _ _ _ | ECompress _ _ _ _ | EEncoder _ _ => true
  | _ => false
  end.

(** A model is looked up in the registry. *)
Definition model_lookup (e : event) : bool :=
  match e with
  | EModelNew _ | ESetBandwidth _ => true
  | _ => false
  end.

(** The full encoder runs: quantization and entropy coding included. *)
Definition is_full_encode (e : event) : bool :=
  match e with ECompress _ _ _ _ => true | _ => false end.

(** A bitstream is written. *)
Definition is_bitstream_write (e : event) : bool :=
  match e with EWriteBytes _ _ => true | _ => false end.

(** Anything the pipelines do once validation is over: content is read or
    written, a model is built, audio is converted, the codec runs. *)
Definition pipeline_work (e : event) : bool :=
  match e with
  | EReadBytes _ | ELoad _ | EWriteBytes _ _ | ETorchSave _ _
  | ESaveAudio _ _ _ _ | EModelNew _ | ESetBandwidth _ | EConvert _ _ _ _
  | ECompress _ _ _ _ | EEncoder _ _ | EDecompress _ _ => true
  | _ => false
  end.

Definition is_decode (e : event) : bool :=
  match e with EDecompress _ _ => true | _ => false end.

Definition is_report (e : event) : bool :=
  match e with EStdout _ => true | _ => false end.

(** The trace without the lines of the elapsed-time report. *)
Definition without_report (t : trace) : trace :=
  filter (fun e => negb (is_report e)) t.

(** The lines written to the error stream, in order. *)
Fixpoint stderr_lines (t : trace) : list message :=
  match t with
  | [] => []
  | EStderr m :: r => m :: stderr_lines r
  | _ :: r => stderr_lines r
  end.

(** No event of the trace is of kind [k]. *)
Definition never (k : event -> bool) (t : trace) : bool :=
  forallb (fun e => negb (k e)) t.

(** A kind of event that the bookkeeping around the pipelines never
    produces: clock, existence tests, CUDA query, printed lines. *)
Definition quiet (k : event -> bool) : Prop :=
  k ETime = false /\ k ECudaQuery = false
  /\ (forall p, k (EExists p) = false)
  /\ (forall m, k (EStdout m) = false)
  /\ (forall m, k (EStderr m) = false).

(** A pipeline that decodes ends with decode, clipping check and save,
    and completes. *)
Definition decodes_then_saves (args : Args) (device : Device) (m : M unit)
  : Prop :=
  exists (payload : Payload) (o : Path) (before : trace),
    fst m = (before ++ playback payload o args device)%list
    /\ stderr_lines before = []
    /\ Plan.effective_output args = Some o
    /\ snd m = Ok tt.

End Driver.


(* ===================================================================== *)
(** ** The fatal checks, as a list *)
(* ===================================================================== *)

Section Checks.

Context {C : Codec}.
Variable w : World.

Inductive check : Type :=
| Chk_input          (* the input path exists *)
| Chk_out_dir        (* the parent directory of the output exists *)
| Chk_out_exists     (* the output does not exist, unless [--force] *)
| Chk_bandwidth      (* compression: the bandwidth is supported *)
| Chk_extension      (* compression: the extension is one of the three *)
| Chk_wav.           (* decompression: the extension is [.wav] *)

(** Whether a check fails for an invocation whose output path is [o]. *)
Definition fails (args : Args) (o : Path) (c : check) : bool :=
  match c with
  | Chk_input => negb (path_exists w (input args))
  | Chk_out_dir => negb (path_exists w (PathOps.parent o))
  | Chk_out_exists => path_exists w o && negb (force args)
  | Chk_bandwidth =>
      negb (Plan.is_decompress args)
      && negb (bandwidth_in (bandwidth args)
                 (target_bandwidths (MODELS (model_name_of args))))
  | Chk_extension =>
      negb (Plan.is_decompress args)
      && negb (str_in (Str.lower (PathOps.suffix o)) [SUFFIX; ".wav"; ".pt"])
  | Chk_wav =>
      Plan.is_decompress args
      && negb (Str.lower (PathOps.suffix o) =? ".wav")
  end.

(** The line [fatal] prints for a failed check. *)
Definition message_of (args : Args) (o : Path) (c : check) : message :=
  match c with
  | Chk_input => Input_missing (input args)
  | Chk_out_dir => Output_folder_missing o
  | Chk_out_exists => Output_exists o
  | Chk_bandwidth =>
      Bandwidth_unsupported (bandwidth args) (model_name_of args)
  | Chk_extension => Output_ext_compress SUFFIX
  | Chk_wav => Output_ext_wav
  end.

(** The order in which the specification lists the checks. *)
Definition listed_order : list check :=
  [Chk_input; Chk_out_dir; Chk_out_exists; Chk_bandwidth; Chk_extension].

(** The order in which [main] meets them. *)
Definition program_order : list check :=
  [Chk_input; Chk_extension; Chk_wav; Chk_out_dir; Chk_out_exists;
   Chk_bandwidth].

(** The earliest check of [order] that fails, if any. *)
Definition first_failure (order : list check) (args : Args) (o : Path)
  : option check :=
  find (fails args o) order.

Definition is_bandwidth_line (m : message) : bool :=
  match m with Bandwidth_unsupported _ _ => true | _ => false end.

Definition is_clipping (m : message) : bool :=
  match m with Clipping _ _ => true | _ => false end.

(** A run ends as the checks of [order] say: if one fails, the line of the
    earliest failing one is the only line on the error stream and the
    process exits with status 1; if none fails, the run completes and the
    error stream holds at most clipping warnings. *)
Definition ends_as (order : list check) (args : Args) (o : Path)
  (m : M unit) : Prop :=
  match first_failure order args o with
  | Some c => stderr_lines (fst m) = [message_of args o c] /\ snd m = Exit 1
  | None => forallb is_clipping (stderr_lines (fst m)) = true /\ snd m = Ok tt
  end.

End Checks.

(** The extension of the output the pipeline sees is legal for its
    branch. *)
Definition legal_plan (args : Args) : bool :=
  match Plan.effective_output args with
  | Some o => Plan.legal_extension args (Str.lower (PathOps.suffix o))
  | None => false
  end.

(** The name of the default output is the stem of the input, the
    decompress-suffix and [.wav], and the decompress-suffix occurs in it
    exactly once. *)
Definition suffix_exactly_once (args : Args) : Prop :=
  match Plan.default_output args with
  | Some p =>
      PathOps.name p
      = PathOps.stem (input args) ++ decompress_suffix args ++ ".wav"
      /\ Str.occurrences (decompress_suffix args) (PathOps.name p) = 1%nat
  | None => False
  end.

(** [p] with its last component replaced by [n]. *)
Definition sibling (p : Path) (n : string) : Path :=
  mkPath (anchor p) (removelast (parts p) ++ [n]).

(** The events of an embedding-only run, as the specification has them:
    no full encode, no decode, no bitstream written. *)
Definition embedding_only {C : Codec} (t : trace) : bool :=
  never is_full_encode t && never is_decode t && never is_bitstream_write t.

(* ===================================================================== *)
(** ** A concrete codec for worked runs *)
(* ===================================================================== *)

(** A toy instance of the collaborators: a waveform is its peak magnitude,
    a payload is the peak it decodes to, a model is its name and active
    bandwidth.  The 24 kHz model supports the five bandwidths, the 48 kHz
    model all but 1.5 (the parser's help: "1.5 is not supported with
    --hq"). *)
Module Toy.

(** Every audio file holds a waveform of peak [peak]; every bitstream
    decodes to the peak it stores. *)
Definition toy_name (m : string * Q) : string := fst m.

Definition toy (peak : Q) : Codec := {|
  Wav := Q;
  Payload := Q;
  Emb := Q;
  Model := string * Q;
  MODELS := fun n => (n, 0%Q);
  target_bandwidths := fun m =>
    if toy_name m =? "encodec_48khz" then [3; 6; 12; 24]%Q
    else [3 # 2; 3; 6; 12; 24]%Q;
  set_target_bandwidth := fun m b => (toy_name m, b);
  sample_rate := fun m =>
    if toy_name m =? "encodec_48khz" then 48000%Z else 24000%Z;
  channels := fun m => if toy_name m =? "encodec_48khz" then 2%Z else 1%Z;
  encoder := fun _ x => x;
  compress := fun _ x _ _ => x;
  decompress := fun b _ => (b, 24000%Z);
  convert_audio := fun x _ _ _ => x;
  torchaudio_load := fun _ => (peak, 16000%Z);
  read_bytes := fun _ => peak;
  abs_max := fun x => x;
  cpu := fun x => x;
  to_device := fun x _ => x;
  unsqueeze0 := fun x => x;
  squeeze0_cpu := fun e => e
|}.

Definition run (peak : Q) (w : World) (args : Args) : @M (toy peak) unit :=
  @main (toy peak) w args.

(** A path from its components, relative to the working directory. *)
Definition rel (l : list string) : Path := mkPath "" l.

(** A world in which exactly the listed paths exist, without CUDA. *)
Fixpoint parts_eqb (a b : list string) : bool :=
  match a, b with
  | [], [] => true
  | x :: a', y :: b' => (x =? y) && parts_eqb a' b'
  | _, _ => false
  end.

Definition path_eqb (p q : Path) : bool :=
  (anchor p =? anchor q) && parts_eqb (parts p) (parts q).

Definition world_of (present : list Path) : World :=
  mkWorld (fun p => existsb (path_eqb p) present) false
          (fun n => inject_Z (Z.of_nat n)).

(** The working directory holds [in.wav] and nothing else; the output is
    asked in a directory that does not exist, with an extension that is
    not legal. *)
Definition order_world : World := world_of [rel ["in.wav"]; rel []].
Definition order_out : Path := rel ["nodir"; "out.mp3"].
Definition order_args : Args := default_args (rel ["in.wav"]) (Some order_out).

(** [encodec sample.wav sample.pt]. *)
Definition emb_world : World := world_of [rel ["sample.wav"]; rel []].
Definition emb_out : Path := rel ["sample.pt"].
Definition emb_args : Args := default_args (rel ["sample.wav"]) (Some emb_out).

(** [encodec foo_decompressed.ecdc] and [encodec a.b_decompressed.ecdc]. *)
Definition again_args : Args :=
  default_args (rel ["foo_decompressed.ecdc"]) None.
Definition dotted_args : Args :=
  default_args (rel ["a.b_decompressed.ecdc"]) None.

(** [encodec clip.ECDC clip.mp3]. *)
Definition mp3_world : World := world_of [rel ["clip.ECDC"]; rel []].
Definition mp3_out : Path := rel ["clip.mp3"].
Definition mp3_args : Args := default_args (rel ["clip.ECDC"]) (Some mp3_out).

(** [encodec sample.wav] when [sample.ecdc] is already there. *)
Definition taken_world : World :=
  world_of [rel ["sample.wav"]; rel ["sample.ecdc"]; rel []].
Definition taken_out : Path := rel ["sample.ecdc"].
Definition taken_args : Args := default_args (rel ["sample.wav"]) None.

(** [encodec --hq -b 1.5 sample.wav]. *)
Definition hq_args : Args :=
  mkArgs (rel ["sample.wav"]) None (3 # 2) true false false "_decompressed"
         false false false.

(** [encodec loud.ecdc] where the bitstream decodes to a peak of 1.2. *)
Definition loud_world : World := world_of [rel ["loud.ecdc"]; rel []].
Definition loud_args : Args := default_args (rel ["loud.ecdc"]) None.
Definition loud_out : Path := rel ["loud_decompressed.wav"].

(** [encodec -t loud.ecdc]. *)
Definition timed_args : Args :=
  mkArgs (rel ["loud.ecdc"]) None 6 false false false "_decompressed"
         false false true.

End Toy.

(* ===================================================================== *)
(** ** Observations on a trace *)
(* ===================================================================== *)

Section Observers.

Context {C : Codec}.

(** The path an event writes to, if it writes. *)
Definition written (e : event) : list (option Path) :=
  match e with
  | EWriteBytes p _ => [Some p]
  | ETorchSave _ p => [p]
  | ESaveAudio _ p _ _ => [p]
  | _ => []
  end.

(** The path whose contents an event reads, if it reads. *)
Definition read (e : event) : list Path :=
  match e with
  | EReadBytes p => [p]
  | ELoad p => [p]
  | _ => []
  end.

(** The line an event puts on the standard output. *)
Definition printed (e : event) : list message :=
  match e with
  | EStdout m => [m]
  | _ => []
  end.

(** The device a codec call is given. *)
Definition device_given (e : event) : list Device :=
  match e with
  | EDecompress _ d => [d]
  | ECompress _ _ _ d => [d]
  | _ => []
  end.

(** The model an encoder call is given. *)
Definition model_given (e : event) : list Model :=
  match e with
  | ECompress m _ _ _ => [m]
  | EEncoder m _ => [m]
  | _ => []
  end.

(** The payload a decode is given. *)
Definition payload_decoded (e : event) : list Payload :=
  match e with
  | EDecompress b _ => [b]
  | _ => []
  end.

(** The observations of one kind along a trace, in order. *)
Definition writes_of (t : trace) : list (option Path) := flat_map written t.
Definition reads_of (t : trace) : list Path := flat_map read t.
Definition stdout_lines (t : trace) : list message := flat_map printed t.
Definition devices_of (t : trace) : list Device := flat_map device_given t.
Definition models_of (t : trace) : list Model := flat_map model_given t.
Definition decoded_of (t : trace) : list Payload :=
  flat_map payload_decoded t.

Definition is_clock (e : event) : bool :=
  match e with ETime => true | _ => false end.

Definition is_cuda_query (e : event) : bool :=
  match e with ECudaQuery => true | _ => false end.

Definition is_raw_read (e : event) : bool :=
  match e with EReadBytes _ => true | _ => false end.

End Observers.

(** The invocation that takes [p] as its input and names no output, with
    the options of [a]. *)
Definition fed_back (a : Args) (p : Path) : Args :=
  mkArgs p None (bandwidth a) (hq a) (lm a) (force a)
         (decompress_suffix a) (rescale a) (gpu a) (time a).


(** More worked invocations for the toy codec. *)
Module Cases.
Import Toy.

(** [encodec missing.wav] in an empty directory. *)
Definition empty_world : World := world_of [rel []].
Definition missing_args : Args := default_args (rel ["missing.wav"]) None.

(** [encodec .]: the input is the working directory. *)
Definition here_args : Args := default_args (rel []) None.

(** [encodec sample.wav]. *)
Definition plain_args : Args := default_args (rel ["sample.wav"]) None.
Definition plain_out : Path := rel ["sample.ecdc"].

(** [encodec -g -t sample.wav preview.WAV]. *)
Definition preview_out : Path := rel ["preview.WAV"].
Definition preview_args : Args :=
  mkArgs (rel ["sample.wav"]) (Some preview_out) 6 false false false
         "_decompressed" false true true.


End Cases.

(* ===================================================================== *)
(** ** Facts about strings and paths *)
(* ===================================================================== *)

Module StrFacts.
Import Str.

Lemma nat_of_ascii_inj (c d : ascii) :
  nat_of_ascii c = nat_of_ascii d -> c = d.
Proof.
  intros H. rewrite <- (ascii_nat_embedding c), <- (ascii_nat_embedding d).
  now rewrite H.
Qed.

Lemma ascii_eqb_nat (c d : ascii) :
  Ascii.eqb c d = (nat_of_ascii c =? nat_of_ascii d)%nat.
Proof.
  destruct (Ascii.eqb_spec c d) as [->|N].
  - now rewrite Nat.eqb_refl.
  - symmetry. apply Nat.eqb_neq. intros E. apply N, nat_of_ascii_inj, E.
Qed.

Lemma nat_of_lower_upper (c : ascii) :
  is_upper c = true -> nat_of_ascii (lower_ascii c) = (nat_of_ascii c + 32)%nat.
Proof.
  intros U. unfold lower_ascii. rewrite U.
  apply nat_ascii_embedding.
  unfold is_upper in U. apply andb_true_iff in U as [_ U].
  apply Nat.leb_le in U. lia.
Qed.

(** A character that [lower] leaves alone is not an upper-case letter. *)
Lemma lower_fixed_not_upper (d : ascii) :
  lower_ascii d = d -> is_upper d = false.
Proof.
  intros F. destruct (is_upper d) eqn:U; [|reflexivity].
  apply nat_of_lower_upper in U. rewrite F in U. lia.
Qed.

Lemma lower_ascii_same_letter (c d : ascii) :
  lower_ascii d = d ->
  Ascii.eqb (lower_ascii c) d = same_letter c d.
Proof.
  intros F. pose proof (lower_fixed_not_upper d F) as Ud.
  unfold same_letter. rewrite Ud, andb_false_l, orb_false_r.
  destruct (is_upper c) eqn:Uc.
  - rewrite andb_true_l, !ascii_eqb_nat, (nat_of_lower_upper c Uc).
    assert (E : (nat_of_ascii c =? nat_of_ascii d)%nat = false).
    { apply Nat.eqb_neq. intros E. apply nat_of_ascii_inj in E. subst d.
      congruence. }
    rewrite E, orb_false_l. apply Nat.eqb_sym.
  - unfold lower_ascii. rewrite Uc, andb_false_l, orb_false_r. reflexivity.
Qed.

(** Comparing the lowered string with a string that is already in lower
    case is comparing the two strings ignoring case. *)
Lemma lower_eqb_nocase (t s : string) :
  lower t = t -> (lower s =? t) = eq_nocase s t.
Proof.
  revert s. induction t as [|d t IH]; intros [|c s] F; simpl in *; try reflexivity.
  injection F as Fd Ft.
  rewrite (lower_ascii_same_letter c d Fd), (IH s Ft). reflexivity.
Qed.

Lemma length_append (a b : string) :
  String.length (a ++ b) = (String.length a + String.length b)%nat.
Proof. induction a; simpl; auto. Qed.

Lemma rfind_dot_append (a b : string) :
  rfind_dot (a ++ b) =
  match rfind_dot b with
  | Some i => Some (String.length a + i)%nat
  | None => rfind_dot a
  end.
Proof.
  induction a as [|c a IH]; simpl.
  - destruct (rfind_dot b); reflexivity.
  - rewrite IH. destruct (rfind_dot b); reflexivity.
Qed.

Lemma rfind_dot_none (s : string) :
  contains "." s = false -> rfind_dot s = None.
Proof.
  induction s as [|c s IH]; cbn [contains rfind_dot]; [reflexivity|].
  intros H. apply orb_false_iff in H as [Hc Hs].
  rewrite (IH Hs). rewrite Ascii.eqb_sym, Hc. reflexivity.
Qed.

Lemma contains_append (c : ascii) (a b : string) :
  contains c (a ++ b) = contains c a || contains c b.
Proof.
  induction a as [|d a IH]; cbn [contains append]; [reflexivity|].
  rewrite IH. apply orb_assoc.
Qed.

Lemma drop_append (a b : string) : drop (String.length a) (a ++ b) = b.
Proof. induction a; simpl; auto. Qed.

Lemma take_append (a b : string) : take (String.length a) (a ++ b) = a.
Proof.
  induction a as [|c a IH]; simpl.
  - destruct b; reflexivity.
  - now rewrite IH.
Qed.

Lemma take_nonempty (i : nat) (s : string) :
  (0 < i)%nat -> s <> "" -> take i s <> "".
Proof. destruct i, s; simpl; intros; try lia; congruence. Qed.

Lemma rfind_dot_extension (b e : string) :
  is_extension e = true -> rfind_dot (b ++ e) = Some (String.length b).
Proof.
  intros E. rewrite rfind_dot_append.
  destruct e as [|c x]; [discriminate|]. cbn [is_extension] in E.
  apply andb_true_iff in E as [E Hx]. apply andb_true_iff in E as [Hc _].
  apply negb_true_iff in Hx.
  cbn [rfind_dot]. rewrite (rfind_dot_none x Hx), Hc. f_equal. lia.
Qed.

Lemma length_extension (e : string) :
  is_extension e = true -> (2 <= String.length e)%nat.
Proof.
  destruct e as [|c [|d x]]; cbn [is_extension String.length];
    try discriminate; [|lia].
  cbn [String.eqb negb]. rewrite andb_false_r. discriminate.
Qed.

End StrFacts.

Module PathFacts.
Import Str StrFacts PathOps.

Lemma split_name_extension (b e : string) :
  b <> "" -> is_extension e = true ->
  suffix_of_name (b ++ e) = e /\ stem_of_name (b ++ e) = b.
Proof.
  intros Hb He. unfold suffix_of_name, stem_of_name.
  rewrite (rfind_dot_extension b e He), length_append.
  pose proof (length_extension e He).
  assert (0 < String.length b)%nat by (destruct b; simpl; [congruence|lia]).
  replace (0 <? String.length b)%nat with true
    by (symmetry; apply Nat.ltb_lt; lia).
  replace (String.length b <? String.length b + String.length e - 1)%nat
    with true by (symmetry; apply Nat.ltb_lt; lia).
  simpl. now rewrite drop_append, take_append.
Qed.

Lemma split_name_no_dot (n : string) :
  contains "." n = false -> suffix_of_name n = "" /\ stem_of_name n = n.
Proof.
  intros H. unfold suffix_of_name, stem_of_name.
  now rewrite (rfind_dot_none n H).
Qed.

Lemma stem_nonempty (n : string) : n <> "" -> stem_of_name n <> "".
Proof.
  intros H. unfold stem_of_name.
  destruct (rfind_dot n) as [i|]; [|assumption].
  destruct ((0 <? i)%nat && (i <? String.length n - 1)%nat) eqn:C;
    [|assumption].
  apply andb_true_iff in C as [C _]. apply Nat.ltb_lt in C.
  now apply take_nonempty.
Qed.

Lemma name_replaced (a : string) (l : list string) (n : string) :
  name (mkPath a (removelast l ++ [n])) = n.
Proof. unfold name. simpl. apply last_last. Qed.

(** [p.with_suffix(e).suffix == e] for an extension [e]. *)
Lemma suffix_with_suffix (p q : Path) (e : string) :
  is_extension e = true -> with_suffix p e = Some q -> suffix q = e.
Proof.
  intros He. unfold with_suffix.
  destruct (negb (valid_suffix e)); [discriminate|].
  destruct (name p =? "") eqn:N; [discriminate|].
  intros [= <-]. unfold suffix. rewrite name_replaced.
  apply split_name_extension; [|assumption].
  apply stem_nonempty. now apply String.eqb_neq.
Qed.

(** [with_suffix] with one of the two extensions of the driver fails only
    on a path without a name. *)
Lemma with_suffix_some (p : Path) (e : string) :
  valid_suffix e = true -> name p <> "" -> with_suffix p e <> None.
Proof.
  intros V N. unfold with_suffix. rewrite V. simpl.
  apply String.eqb_neq in N. rewrite N. discriminate.
Qed.

End PathFacts.

(* ===================================================================== *)
(** ** The flat reading is the driver *)
(* ===================================================================== *)

Section Flat.

Context {C : Codec}.
Variable w : World.

Local Open Scope driver_scope.

Lemma ret_bind {A B} (a : A) (f : A -> M B) : (x <- ret a ;; f x) = f a.
Proof. unfold ret, bind. now destruct (f a). Qed.

Lemma raise_bind {A B} (e : exn) (f : A -> M B) :
  (x <- raise e ;; f x) = raise e.
Proof. reflexivity. Qed.

Lemma fatal_bind {A B} (m : message) (f : A -> M B) :
  (x <- fatal m ;; f x) = fatal m.
Proof. reflexivity. Qed.

Lemma emit_bind {A B} (e : event) (a : A) (f : A -> M B) :
  (x <- emit e a ;; f x) = ((e :: fst (f a))%list, snd (f a)).
Proof. unfold emit, bind. now destruct (f a). Qed.

Lemma check_clipping_flat (wav : Wav) (args : Args) :
  check_clipping wav args = (clipping_lines wav args, Ok tt).
Proof.
  unfold check_clipping, clipping_lines.
  destruct (rescale args); [reflexivity|].
  destruct (negb (Qle_bool (abs_max wav) limit_as_compared)); reflexivity.
Qed.

Lemma check_output_exists_flat (args : Args) (o : Path) (rest : M unit) :
  output args = Some o ->
  (check_output_exists w args ;; rest) = guarded w o args rest.
Proof.
  intros Ho.
  unfold check_output_exists, guarded, output_attr, exists_, fatal,
    print_stderr, sys_exit, emit, ret, bind.
  rewrite Ho.
  destruct (path_exists w (PathOps.parent o)); cbn [negb]; [|reflexivity].
  destruct (path_exists w o), (force args); cbn [negb andb];
    destruct rest; reflexivity.
Qed.

(** What follows a successful decode, in both branches. *)
Lemma playback_flat (payload : Payload) (o : Path) (args : Args)
      (device : Device) :
  output args = Some o ->
  ('(out, out_sample_rate) <- do_decompress payload device ;;
   check_clipping out args ;;
   let out := if gpu args then cpu out else out in
   save_audio out (output args) out_sample_rate (rescale args))
  = (playback payload o args device, Ok tt).
Proof.
  intros Ho. unfold do_decompress, playback, emit, save_audio.
  unfold bind at 1. destruct (decompress payload device) as [out sr].
  rewrite check_clipping_flat. unfold bind. cbn [fst snd app].
  rewrite Ho. reflexivity.
Qed.

Lemma decode_stage_flat (o : Path) (args : Args) (device : Device) :
  output args = Some o ->
  (payload <- do_read_bytes (input args) ;;
   '(out, out_sample_rate) <- do_decompress payload device ;;
   check_clipping out args ;;
   let out := if gpu args then cpu out else out in
   save_audio out (output args) out_sample_rate (rescale args))
  = decode_stage o args device.
Proof.
  intros Ho. unfold do_read_bytes, emit. unfold bind at 1.
  rewrite (playback_flat _ o args device Ho). reflexivity.
Qed.

Lemma decompression_is_flat (args : Args) (device : Device) :
  decompression w args device = decompression_flat w args device.
Proof.
  unfold decompression, decompression_flat.
  destruct (output args) as [o|] eqn:Ho.
  - destruct (negb (Str.lower (PathOps.suffix o) =? ".wav")) eqn:E.
    + reflexivity.
    + rewrite ret_bind, (check_output_exists_flat args o _ Ho).
      f_equal. now apply decode_stage_flat.
  - unfold Plan.default_wav, or_value_error.
    destruct (PathOps.with_name _ _) as [p|]; [|reflexivity].
    rewrite ret_bind.
    destruct (PathOps.with_suffix p ".wav") as [o|]; [|reflexivity].
    rewrite !ret_bind.
    rewrite (check_output_exists_flat (set_output args o) o _ eq_refl).
    etransitivity;
      [apply f_equal, (decode_stage_flat o (set_output args o) device eq_refl)
      |reflexivity].
Qed.

Lemma encode_stage_flat (o : Path) (args : Args) (device : Device) :
  output args = Some o ->
  (let model_name := if hq args then "encodec_48khz" else "encodec_24khz" in
   model <- new_model model_name ;;
   (if negb (bandwidth_in (bandwidth args) (target_bandwidths model))
    then fatal (Bandwidth_unsupported (bandwidth args) model_name)
    else ret tt) ;;
   model <- do_set_target_bandwidth model (bandwidth args) ;;
   '(wav, sr) <- do_load (input args) ;;
   wav <- do_convert_audio wav sr (sample_rate model) (channels model) ;;
   compressed <- do_compress model wav (lm args) device ;;
   o <- output_attr args ;;
   if Str.lower (PathOps.suffix o) =? SUFFIX then
     write_bytes o compressed
   else if Str.lower (PathOps.suffix o) =? ".pt" then
     emb <- do_encoder model (to_device (unsqueeze0 wav) device) ;;
     let emb := squeeze0_cpu emb in
     torch_save emb (output args)
   else
     (if Str.lower (PathOps.suffix o) =? ".wav"
      then ret tt else raise AssertionError) ;;
     '(out, out_sample_rate) <- do_decompress compressed device ;;
     check_clipping out args ;;
     let out := if gpu args then cpu out else out in
     save_audio out (output args) out_sample_rate (rescale args))
  = encode_stage o args device.
Proof.
  intros Ho. unfold encode_stage, model_name_of. cbv zeta.
  set (model_name := if hq args then _ else _).
  unfold new_model. rewrite emit_bind.
  destruct (negb (bandwidth_in _ _)); [reflexivity|].
  rewrite ret_bind. unfold do_set_target_bandwidth. rewrite emit_bind.
  set (model := set_target_bandwidth _ _).
  unfold do_load. rewrite emit_bind.
  destruct (torchaudio_load (input args)) as [wav0 sr]. cbn [fst snd].
  unfold do_convert_audio. rewrite emit_bind.
  set (wav := convert_audio _ _ _ _).
  unfold do_compress. rewrite emit_bind.
  set (compressed := compress _ _ _ _).
  unfold output_attr. rewrite Ho, ret_bind.
  destruct (Str.lower (PathOps.suffix o) =? SUFFIX); [reflexivity|].
  destruct (Str.lower (PathOps.suffix o) =? ".pt").
  - unfold do_encoder, torch_save. rewrite emit_bind. reflexivity.
  - destruct (Str.lower (PathOps.suffix o) =? ".wav").
    + rewrite ret_bind.
      pose proof (playback_flat compressed o args device Ho) as P.
      cbv zeta in P. rewrite Ho in P. rewrite P. reflexivity.
    + reflexivity.
Qed.

Lemma compression_is_flat (args : Args) (device : Device) :
  compression w args device = compression_flat w args device.
Proof.
  unfold compression, compression_flat.
  destruct (output args) as [o|] eqn:Ho.
  - destruct (negb (str_in _ _)); [reflexivity|].
    rewrite ret_bind, (check_output_exists_flat args o _ Ho).
    f_equal. now apply encode_stage_flat.
  - unfold Plan.default_ecdc, or_value_error.
    destruct (PathOps.with_suffix _ _) as [o|]; [|reflexivity].
    rewrite !ret_bind.
    rewrite (check_output_exists_flat (set_output args o) o _ eq_refl).
    etransitivity;
      [apply f_equal, (encode_stage_flat o (set_output args o) device eq_refl)
      |reflexivity].
Qed.

Lemma main_with_flat (body : Args -> Device -> M unit) (args : Args) :
  main_with w body args =
  if negb (path_exists w (input args)) then
    (((if time args then [ETime] else [])
      ++ [EExists (input args); EStderr (Input_missing (input args))])%list,
     Exit 1)
  else
    match snd (body args (device_of w args)) with
    | Ok _ =>
        ((opening args ++ fst (body args (device_of w args))
          ++ closing w args)%list, Ok tt)
    | r => ((opening args ++ fst (body args (device_of w args)))%list, r)
    end.
Proof.
  unfold main_with, opening, closing, device_of, time_time, exists_,
    cuda_available, fatal, print_stderr, print_stdout, sys_exit, emit, ret.
  destruct (time args), (path_exists w (input args)), (gpu args);
    cbn [negb bind app fst snd];
    try reflexivity;
    destruct (body args _) as [t [[]|c|e]]; unfold bind; cbn [fst snd app];
    rewrite ?app_nil_r; reflexivity.
Qed.

(** [main] is its flat reading. *)
Lemma main_is_flat (args : Args) : main w args = main_flat w args.
Proof.
  change (main w args)
    with (main_with w
            (fun a device =>
               if Str.lower (PathOps.suffix (input a)) =? SUFFIX
               then decompression w a device
               else compression w a device) args).
  rewrite main_with_flat.
  unfold main_flat, pipeline_flat, Plan.is_decompress.
  rewrite <- decompression_is_flat, <- compression_is_flat.
  reflexivity.
Qed.

End Flat.

(* ===================================================================== *)
(** ** Traces of the flat reading *)
(* ===================================================================== *)

Section Traces.

Context {C : Codec}.
Variable w : World.

Lemma never_app (k : event -> bool) (a b : trace) :
  never k (a ++ b)%list = never k a && never k b.
Proof. apply forallb_app. Qed.

Lemma stderr_lines_app (a b : trace) :
  stderr_lines (a ++ b)%list = (stderr_lines a ++ stderr_lines b)%list.
Proof.
  induction a as [|e a IH]; [reflexivity|].
  destruct e; cbn [app stderr_lines]; rewrite IH; reflexivity.
Qed.

Lemma never_opening (k : event -> bool) (args : Args) :
  quiet k -> never k (opening args) = true.
Proof.
  intros (T & Q & E & _). unfold opening.
  destruct (time args), (gpu args); cbn; rewrite ?T, ?Q, ?E; reflexivity.
Qed.

Lemma never_closing (k : event -> bool) (args : Args) :
  quiet k -> never k (closing w args) = true.
Proof.
  intros (T & _ & _ & O & _). unfold closing.
  destruct (time args); cbn; rewrite ?T, ?O; reflexivity.
Qed.

Lemma stderr_opening (args : Args) : stderr_lines (opening args) = [].
Proof. unfold opening. destruct (time args), (gpu args); reflexivity. Qed.

Lemma stderr_closing (args : Args) : stderr_lines (closing w args) = [].
Proof. unfold closing. destruct (time args); reflexivity. Qed.

(** How a run ends is how its pipeline ends, once the input is there. *)
Lemma main_result (args : Args) :
  snd (main w args) =
  if negb (path_exists w (input args)) then Exit 1
  else snd (pipeline_flat w args).
Proof.
  rewrite main_is_flat. unfold main_flat.
  destruct (negb (path_exists w (input args))); [reflexivity|].
  destruct (snd (pipeline_flat w args)) as [[]|c|e]; reflexivity.
Qed.

Lemma main_never (k : event -> bool) (args : Args) :
  quiet k ->
  never k (fst (main w args)) =
  negb (path_exists w (input args)) || never k (fst (pipeline_flat w args)).
Proof.
  intros Q. rewrite main_is_flat. unfold main_flat.
  destruct (negb (path_exists w (input args))).
  - destruct Q as (T & _ & E & _ & S).
    destruct (time args); cbn; rewrite ?T, ?E, ?S; reflexivity.
  - cbn [orb].
    destruct (snd (pipeline_flat w args)) as [[]|c|e]; cbn [fst];
      rewrite ?never_app, (never_opening k args Q),
        ?(never_closing k args Q), ?andb_true_r; reflexivity.
Qed.

Lemma main_stderr (args : Args) :
  stderr_lines (fst (main w args)) =
  if negb (path_exists w (input args)) then [Input_missing (input args)]
  else stderr_lines (fst (pipeline_flat w args)).
Proof.
  rewrite main_is_flat. unfold main_flat.
  destruct (negb (path_exists w (input args))).
  - destruct (time args); reflexivity.
  - destruct (snd (pipeline_flat w args)) as [[]|c|e]; cbn [fst];
      rewrite ?stderr_lines_app, stderr_opening, ?stderr_closing,
        ?app_nil_r; reflexivity.
Qed.

(** [guarded]: how it ends, what it leaves. *)
Lemma guarded_result (o : Path) (args : Args) (rest : M unit) :
  snd (guarded w o args rest) =
  if negb (path_exists w (PathOps.parent o)) then Exit 1
  else if path_exists w o && negb (force args) then Exit 1
  else snd rest.
Proof.
  unfold guarded.
  destruct (negb _); [reflexivity|]. now destruct (_ && _).
Qed.

Lemma guarded_never (k : event -> bool) (o : Path) (args : Args)
      (rest : M unit) :
  quiet k ->
  never k (fst (guarded w o args rest)) =
  negb (path_exists w (PathOps.parent o))
  || (path_exists w o && negb (force args))
  || never k (fst rest).
Proof.
  intros (_ & _ & E & _ & S). unfold guarded.
  destruct (negb _); [cbn; now rewrite E, S|].
  destruct (_ && _); cbn; rewrite ?E, ?S; reflexivity.
Qed.

Lemma guarded_stderr (o : Path) (args : Args) (rest : M unit) :
  stderr_lines (fst (guarded w o args rest)) =
  if negb (path_exists w (PathOps.parent o))
  then [Output_folder_missing o]
  else if path_exists w o && negb (force args) then [Output_exists o]
  else stderr_lines (fst rest).
Proof.
  unfold guarded.
  destruct (negb _); [reflexivity|]. now destruct (_ && _).
Qed.

End Traces.

(* ===================================================================== *)
(** ** Selection of the pipeline *)
(* ===================================================================== *)

Section Claims.

Context {C : Codec}.

Ltac quiet_kind := unfold quiet; repeat split.

Lemma SUFFIX_lower : Str.lower SUFFIX = SUFFIX.
Proof. reflexivity. Qed.

Lemma is_decompress_nocase (args : Args) :
  Plan.is_decompress args
  = Str.eq_nocase (PathOps.suffix (input args)) SUFFIX.
Proof. apply StrFacts.lower_eqb_nocase, SUFFIX_lower. Qed.

(** C9.  The input's extension decides the pipeline, case ignored: [main]
    runs the decompression branch when the extension equals [.ecdc] under
    case-insensitive comparison, and the compression branch for every
    other input. *)
Theorem C9_mode_by_extension (w : World) (args : Args) :
  main w args =
  main_with w
    (if Str.eq_nocase (PathOps.suffix (input args)) SUFFIX
     then decompression w else compression w)
    args.
Proof.
  rewrite <- is_decompress_nocase. unfold Plan.is_decompress, main, main_with.
  destruct (Str.lower (PathOps.suffix (input args)) =? SUFFIX); reflexivity.
Qed.

(** The spellings the specification names all select decompression. *)
Lemma spellings_select_decompression :
  forallb (fun n => Plan.is_decompress (default_args (mkPath "" [n]) None))
          ["a.ecdc"; "a.ECDC"; "a.Ecdc"; "dir.wav.eCdC"] = true
  /\ forallb (fun n => negb (Plan.is_decompress
                               (default_args (mkPath "" [n]) None)))
             ["a.wav"; "a.ecdc.wav"; ".ecdc"; "ecdc"; "a.ecdc."] = true.
Proof. split; reflexivity. Qed.

(* ===================================================================== *)
(** ** What a doomed invocation does not do *)
(* ===================================================================== *)

(** C5.  Decompression with an explicit output whose extension is not
    [.wav], case ignored: the process prints one line on the error stream
    and exits with a non-zero status, and the contents of the input are
    never read. *)
Theorem C5_decompress_needs_wav (w : World) (args : Args) (o : Path) :
  Plan.is_decompress args = true ->
  output args = Some o ->
  Str.eq_nocase (PathOps.suffix o) ".wav" = false ->
  exit_status (snd (main w args)) <> 0%Z
  /\ (exists m, stderr_lines (fst (main w args)) = [m])
  /\ never reads_input (fst (main w args)) = true.
Proof.
  intros Hd Ho Hx.
  rewrite <- (StrFacts.lower_eqb_nocase ".wav" _ eq_refl) in Hx.
  rewrite main_result, main_stderr, (main_never w reads_input) by quiet_kind.
  unfold pipeline_flat, decompression_flat. rewrite Hd, Ho, Hx. cbn [negb].
  destruct (path_exists w (input args)); cbn;
    (split; [discriminate|split; [eexists; reflexivity|reflexivity]]).
Qed.

(** C6.  The output path exists and [--force] is not given: in either
    branch the process exits with a non-zero status, no file is written
    and no codec operation runs. *)
Theorem C6_no_overwrite_without_force (w : World) (args : Args) (o : Path) :
  Plan.effective_output args = Some o ->
  path_exists w o = true ->
  force args = false ->
  exit_status (snd (main w args)) <> 0%Z
  /\ never writes_file (fst (main w args)) = true
  /\ never codec_operation (fst (main w args)) = true.
Proof.
  intros Ho Hx Hf.
  assert (G : forall rest : M unit,
             exit_status (snd (guarded w o args rest)) <> 0%Z
             /\ never writes_file (fst (guarded w o args rest)) = true
             /\ never codec_operation (fst (guarded w o args rest)) = true).
  { intros rest.
    rewrite guarded_result, !guarded_never by quiet_kind.
    rewrite Hx, Hf. cbn [negb andb orb].
    rewrite !orb_true_r.
    destruct (negb (path_exists w (PathOps.parent o)));
      repeat split; discriminate. }
  rewrite main_result, !main_never by quiet_kind.
  destruct (path_exists w (input args)); cbn [negb orb];
    [|repeat split; discriminate].
  unfold Plan.effective_output, Plan.default_output in Ho.
  unfold pipeline_flat, decompression_flat, compression_flat.
  destruct (Plan.is_decompress args), (output args) as [o'|].
  - injection Ho as ->.
    destruct (negb (_ =? ".wav")); [repeat split; discriminate|apply G].
  - rewrite Ho. apply G.
  - injection Ho as ->.
    destruct (negb (str_in _ _)); [repeat split; discriminate|apply G].
  - rewrite Ho. apply G.
Qed.

(** C7.  Compression with a bandwidth the selected model does not
    support: the process exits with a non-zero status, and the waveform is
    neither loaded, nor resampled, nor encoded. *)
Theorem C7_unsupported_bandwidth (w : World) (args : Args) :
  Plan.is_decompress args = false ->
  bandwidth_in (bandwidth args)
    (target_bandwidths (MODELS (model_name_of args))) = false ->
  exit_status (snd (main w args)) <> 0%Z
  /\ never load_or_encode (fst (main w args)) = true.
Proof.
  intros Hd Hb.
  assert (G : forall o,
             exit_status (snd (guarded w o args (encode_stage o args
                                                   (device_of w args))))
             <> 0%Z
             /\ never load_or_encode
                  (fst (guarded w o args (encode_stage o args
                                            (device_of w args)))) = true).
  { intros o.
    rewrite guarded_result, guarded_never by quiet_kind.
    unfold encode_stage. rewrite Hb. cbn [negb fst snd].
    destruct (negb (path_exists w (PathOps.parent o)));
      [split; [discriminate|reflexivity]|].
    destruct (path_exists w o && negb (force args));
      split; try discriminate; reflexivity. }
  rewrite main_result, main_never by quiet_kind.
  destruct (path_exists w (input args)); cbn [negb orb];
    [|split; [discriminate|reflexivity]].
  unfold pipeline_flat, compression_flat. rewrite Hd.
  destruct (output args) as [o'|].
  - destruct (negb (str_in _ _)); [split; [discriminate|reflexivity]|apply G].
  - destruct (Plan.default_ecdc args);
      [apply G|split; [discriminate|reflexivity]].
Qed.

(* ===================================================================== *)
(** ** The extension of the output *)
(* ===================================================================== *)

(** The two default outputs carry the extension of their branch. *)
Lemma default_wav_suffix (args : Args) (o : Path) :
  Plan.default_wav args = Some o -> PathOps.suffix o = ".wav".
Proof.
  unfold Plan.default_wav.
  destruct (PathOps.with_name _ _) as [p|]; [|discriminate].
  now apply PathFacts.suffix_with_suffix.
Qed.

Lemma default_ecdc_suffix (args : Args) (o : Path) :
  Plan.default_ecdc args = Some o -> PathOps.suffix o = SUFFIX.
Proof. now apply PathFacts.suffix_with_suffix. Qed.

(** Past the extension check, the [assert] of the round-trip branch
    holds. *)
Lemma encode_stage_asserts (o : Path) (args : Args) (device : Device) :
  str_in (Str.lower (PathOps.suffix o)) [SUFFIX; ".wav"; ".pt"] = true ->
  snd (encode_stage o args device) <> Raise AssertionError.
Proof.
  intros L. unfold encode_stage. cbv zeta.
  destruct (negb (bandwidth_in _ _)); [discriminate|].
  unfold str_in in L. cbn [existsb] in L.
  destruct (Str.lower (PathOps.suffix o) =? SUFFIX); [discriminate|].
  destruct (Str.lower (PathOps.suffix o) =? ".pt"); [discriminate|].
  destruct (Str.lower (PathOps.suffix o) =? ".wav"); [discriminate|].
  discriminate L.
Qed.

Lemma guarded_asserts (w : World) (o : Path) (args : Args) (rest : M unit) :
  snd rest <> Raise AssertionError ->
  snd (guarded w o args rest) <> Raise AssertionError.
Proof.
  intros R. rewrite guarded_result.
  destruct (negb _); [discriminate|]. now destruct (_ && _).
Qed.

(** C4.  Whenever a run does any work of a pipeline (reads or writes the
    contents of a file, builds a model, converts audio, runs the codec),
    the output path the pipeline sees has an extension that is legal for
    its branch: [.wav] for decompression, one of [.ecdc], [.wav], [.pt]
    for compression.  The [assert] of the round-trip branch never
    fails. *)
Theorem C4_extension_legal_before_work (w : World) (args : Args) :
  never pipeline_work (fst (main w args)) || legal_plan args = true
  /\ snd (main w args) <> Raise AssertionError.
Proof.
  rewrite main_result, main_never by quiet_kind.
  destruct (path_exists w (input args)); cbn [negb orb];
    [|split; [reflexivity|discriminate]].
  unfold legal_plan, Plan.effective_output, Plan.default_output,
    Plan.legal_extension, pipeline_flat, decompression_flat,
    compression_flat.
  destruct (Plan.is_decompress args), (output args) as [o|].
  - destruct (Str.lower (PathOps.suffix o) =? ".wav"); cbn [negb].
    + split; [apply orb_true_r|]. apply guarded_asserts. discriminate.
    + split; [reflexivity|discriminate].
  - destruct (Plan.default_wav args) as [o|] eqn:D.
    + rewrite (default_wav_suffix args o D).
      split; [apply orb_true_r|]. apply guarded_asserts. discriminate.
    + split; [reflexivity|discriminate].
  - destruct (str_in _ _) eqn:L; cbn [negb].
    + split; [apply orb_true_r|].
      now apply guarded_asserts, encode_stage_asserts.
    + split; [reflexivity|discriminate].
  - destruct (Plan.default_ecdc args) as [o|] eqn:D.
    + pose proof (default_ecdc_suffix args o D) as S. rewrite S.
      split; [apply orb_true_r|].
      apply guarded_asserts, encode_stage_asserts. now rewrite S.
    + split; [reflexivity|discriminate].
Qed.

(* ===================================================================== *)
(** ** The clipping warning *)
(* ===================================================================== *)

Lemma playback_stderr (payload : Payload) (o : Path) (args : Args)
      (device : Device) :
  stderr_lines (playback payload o args device)
  = let mx := abs_max (fst (decompress payload device)) in
    if negb (rescale args) && negb (Qle_bool mx limit_as_compared)
    then [Clipping mx (99 # 100)] else [].
Proof.
  unfold playback, clipping_lines. cbv zeta. cbn [stderr_lines].
  rewrite stderr_lines_app.
  destruct (rescale args); [reflexivity|].
  destruct (negb (Qle_bool _ _)); reflexivity.
Qed.

Lemma playback_saves (payload : Payload) (o : Path) (args : Args)
      (device : Device) :
  let out := fst (decompress payload device) in
  In (ESaveAudio (if gpu args then cpu out else out) (Some o)
                 (snd (decompress payload device)) (rescale args))
     (playback payload o args device).
Proof.
  unfold playback. cbv zeta. right. apply in_or_app. right. now left.
Qed.

Lemma guarded_decodes (w : World) (o : Path) (args : Args) (rest : M unit) :
  Plan.effective_output args = Some o ->
  (never is_decode (fst rest) = false ->
   exists payload before,
     fst rest = (before ++ playback payload o args (device_of w args))%list
     /\ stderr_lines before = [] /\ snd rest = Ok tt) ->
  never is_decode (fst (guarded w o args rest)) = false ->
  decodes_then_saves args (device_of w args) (guarded w o args rest).
Proof.
  intros Ho R. rewrite guarded_never by quiet_kind. unfold guarded.
  destruct (negb (path_exists w (PathOps.parent o))); [discriminate|].
  destruct (path_exists w o && negb (force args)); [discriminate|].
  cbn [orb fst snd]. intros D.
  destruct (R D) as (payload & before & E & S & K).
  exists payload, o,
    (EExists (PathOps.parent o) :: EExists o :: before)%list.
  rewrite E. repeat split; assumption.
Qed.

Lemma pipeline_decodes (w : World) (args : Args) :
  never is_decode (fst (pipeline_flat w args)) = false ->
  decodes_then_saves args (device_of w args) (pipeline_flat w args).
Proof.
  unfold pipeline_flat, decompression_flat, compression_flat.
  assert (Dec : forall o,
    never is_decode (fst (decode_stage o args (device_of w args))) = false ->
    exists payload before,
      fst (decode_stage o args (device_of w args))
      = (before ++ playback payload o args (device_of w args))%list
      /\ stderr_lines before = []
      /\ snd (decode_stage o args (device_of w args)) = Ok tt).
  { intros o _. exists (read_bytes (input args)), [EReadBytes (input args)].
    repeat split. }
  assert (Enc : forall o,
    never is_decode (fst (encode_stage o args (device_of w args))) = false ->
    exists payload before,
      fst (encode_stage o args (device_of w args))
      = (before ++ playback payload o args (device_of w args))%list
      /\ stderr_lines before = []
      /\ snd (encode_stage o args (device_of w args)) = Ok tt).
  { intros o. unfold encode_stage. cbv zeta.
    destruct (negb (bandwidth_in _ _)); [discriminate|].
    destruct (Str.lower (PathOps.suffix o) =? SUFFIX); [discriminate|].
    destruct (Str.lower (PathOps.suffix o) =? ".pt"); [discriminate|].
    destruct (Str.lower (PathOps.suffix o) =? ".wav"); [|discriminate].
    intros _. eexists _, _. cbn [fst snd]. repeat split. }
  assert (Eff : forall o,
    match output args with
    | Some o' => o' = o
    | None => (if Plan.is_decompress args then Plan.default_wav args
               else Plan.default_ecdc args) = Some o
    end -> Plan.effective_output args = Some o).
  { intros o. unfold Plan.effective_output, Plan.default_output.
    destruct (output args); [now intros ->|trivial]. }
  destruct (Plan.is_decompress args), (output args) as [o|] eqn:Ho.
  - destruct (negb (_ =? ".wav")); [discriminate|].
    apply guarded_decodes; [now apply Eff|apply Dec].
  - destruct (Plan.default_wav args) as [o|] eqn:D; [|discriminate].
    apply guarded_decodes; [now apply Eff|apply Dec].
  - destruct (negb (str_in _ _)); [discriminate|].
    apply guarded_decodes; [now apply Eff|apply Enc].
  - destruct (Plan.default_ecdc args) as [o|] eqn:D; [|discriminate].
    apply guarded_decodes; [now apply Eff|apply Enc].
Qed.

(** The limit of the comparison is the single-precision number next to
    0.99, a little above it. *)
Lemma limit_as_compared_value :
  (limit_as_compared == 4152361 # 4194304)%Q
  /\ (99 # 100 < limit_as_compared)%Q.
Proof. split; reflexivity. Qed.

(** C8, as the program has it.  A run that decodes a waveform
    (decompression, or compression with a [.wav] output) goes on with the
    clipping check and the save and completes.  The comparison of the
    peak with the limit is made in single precision: the error stream
    holds the clipping warning when [--rescale] is not given and the peak
    magnitude of the decoded waveform exceeds 0.99 as rounded to float32
    (4152361/4194304), and nothing otherwise; in every case the waveform
    is saved to the output path and the run ends normally. *)
Theorem C8_clipping_warns_never_blocks (w : World) (args : Args) :
  never is_decode (fst (main w args)) = false ->
  exists (payload : Payload) (o : Path) (before : trace),
    let device := device_of w args in
    let out := fst (decompress payload device) in
    let mx := abs_max out in
    fst (main w args)
    = (before ++ playback payload o args device ++ closing w args)%list
    /\ stderr_lines before = []
    /\ (rescale args = false -> (limit_as_compared < mx)%Q ->
        stderr_lines (fst (main w args)) = [Clipping mx (99 # 100)])
    /\ (rescale args = true \/ (mx <= limit_as_compared)%Q ->
        stderr_lines (fst (main w args)) = [])
    /\ Plan.effective_output args = Some o
    /\ In (ESaveAudio (if gpu args then cpu out else out) (Some o)
                      (snd (decompress payload device)) (rescale args))
          (fst (main w args))
    /\ snd (main w args) = Ok tt.
Proof.
  intros D. rewrite main_never in D by quiet_kind.
  destruct (path_exists w (input args)) eqn:X; [|discriminate].
  cbn [negb orb] in D.
  destruct (pipeline_decodes w args D) as (payload & o & before & E & S & O & K).
  assert (Etr : fst (main w args)
                = ((opening args ++ before)
                   ++ playback payload o args (device_of w args)
                   ++ closing w args)%list).
  { rewrite main_is_flat. unfold main_flat. rewrite X, K, E. cbn [negb fst].
    now rewrite <- !app_assoc. }
  assert (L : stderr_lines (fst (main w args))
              = stderr_lines (playback payload o args (device_of w args))).
  { rewrite Etr, !stderr_lines_app, stderr_opening, S, stderr_closing.
    cbn [app]. apply app_nil_r. }
  exists payload, o, (opening args ++ before)%list. cbv zeta.
  split; [exact Etr|].
  split; [now rewrite stderr_lines_app, stderr_opening, S|].
  rewrite L, playback_stderr. cbv zeta.
  split; [|split; [|split; [exact O|split]]].
  - intros R Hlt. rewrite R. cbn [negb andb].
    destruct (Qle_bool _ _) eqn:B; [|reflexivity].
    apply Qle_bool_iff in B. exfalso. now apply (Qlt_not_le _ _ Hlt).
  - intros [R|Hle].
    + now rewrite R.
    + apply Qle_bool_iff in Hle. rewrite Hle. now rewrite andb_false_r.
  - rewrite Etr. apply in_or_app. right. apply in_or_app. left.
    apply playback_saves.
  - rewrite main_result, X. exact K.
Qed.

(* ===================================================================== *)
(** ** Flags that decompression ignores *)
(* ===================================================================== *)

Lemma never_playback (k : event -> bool) (payload : Payload) (o : Path)
      (args : Args) (device : Device) :
  quiet k ->
  (forall b d, k (EDecompress b d) = false) ->
  (forall x p sr r, k (ESaveAudio x p sr r) = false) ->
  never k (playback payload o args device) = true.
Proof.
  intros (_ & _ & _ & _ & S) D A. unfold playback, clipping_lines. cbv zeta.
  destruct (rescale args); [cbn; now rewrite D, A|].
  destruct (negb (Qle_bool _ _)); cbn; rewrite D, A, ?S; reflexivity.
Qed.

Lemma pipeline_ignores_codec_flags (w : World) (args : Args) (b : Q)
      (q l : bool) :
  Plan.is_decompress args = true ->
  pipeline_flat w (set_codec_flags args b q l) = pipeline_flat w args.
Proof.
  intros Hd. unfold pipeline_flat.
  change (Plan.is_decompress (set_codec_flags args b q l))
    with (Plan.is_decompress args).
  rewrite Hd. reflexivity.
Qed.

Lemma without_report_closing (w : World) (args : Args) :
  without_report (closing w args) = if time args then [ETime] else [].
Proof. unfold closing. destruct (time args); reflexivity. Qed.

Lemma decompression_flat_no_model (w : World) (args : Args) (d : Device) :
  never model_lookup (fst (decompression_flat w args d)) = true
  /\ forallb (fun m => negb (is_bandwidth_line m))
       (stderr_lines (fst (decompression_flat w args d))) = true.
Proof.
  assert (G : forall o,
    never model_lookup (fst (guarded w o args (decode_stage o args d))) = true
    /\ forallb (fun m => negb (is_bandwidth_line m))
         (stderr_lines (fst (guarded w o args (decode_stage o args d))))
       = true).
  { intros o. rewrite guarded_never by quiet_kind. rewrite guarded_stderr.
    destruct (negb (path_exists w (PathOps.parent o)));
      [split; reflexivity|].
    destruct (path_exists w o && negb (force args)); [split; reflexivity|].
    unfold decode_stage. cbn [fst orb stderr_lines].
    split.
    - change (never model_lookup (EReadBytes (input args) :: ?t))
        with (never model_lookup t).
      apply never_playback; [quiet_kind|reflexivity|reflexivity].
    - rewrite playback_stderr. cbv zeta.
      now destruct (negb (rescale args) && _). }
  unfold decompression_flat.
  destruct (output args) as [o|].
  - destruct (negb _); [split; reflexivity|apply G].
  - destruct (Plan.default_wav args); [apply G|split; reflexivity].
Qed.

(** C10.  In decompression the values of [--bandwidth], [--hq] and [--lm]
    change nothing of what the pipeline does: given the same input and the
    same other arguments, the run ends the same way and leaves the same
    events (existence checks, lines on the error stream, read, decode,
    clipping check, save), apart from the line of the elapsed-time report,
    which prints the three flags under [--time].  No model is built or
    configured and no line about an unsupported bandwidth is printed. *)
Theorem C10_decompress_ignores_codec_flags
        (w : World) (args : Args) (b : Q) (q l : bool) :
  Plan.is_decompress args = true ->
  let args' := set_codec_flags args b q l in
  snd (main w args') = snd (main w args)
  /\ without_report (fst (main w args'))
     = without_report (fst (main w args))
  /\ never model_lookup (fst (main w args')) = true
  /\ forallb (fun m => negb (is_bandwidth_line m))
       (stderr_lines (fst (main w args'))) = true.
Proof.
  intros Hd args'.
  pose proof (pipeline_ignores_codec_flags w args b q l Hd) as P.
  fold args' in P.
  split; [|split; [|split]].
  - rewrite !main_result, P. reflexivity.
  - rewrite !main_is_flat. unfold main_flat. rewrite P.
    change (input args') with (input args).
    change (time args') with (time args).
    change (opening args') with (opening args).
    destruct (negb (path_exists w (input args))); [reflexivity|].
    destruct (snd (pipeline_flat w args)); [|reflexivity|reflexivity].
    cbn [fst]. unfold without_report.
    rewrite !filter_app.
    fold (without_report (closing w args')) (without_report (closing w args)).
    rewrite !without_report_closing. reflexivity.
  - rewrite main_never, P by quiet_kind.
    unfold pipeline_flat. rewrite Hd.
    rewrite (proj1 (decompression_flat_no_model w args _)).
    apply orb_true_r.
  - rewrite main_stderr, P.
    destruct (negb (path_exists w (input args'))); [reflexivity|].
    unfold pipeline_flat. rewrite Hd.
    apply decompression_flat_no_model.
Qed.

(** Under [--time] the report line does show the flags. *)
Lemma report_shows_codec_flags (w : World) (args : Args) :
  time args = true ->
  closing w args =
  [ETime;
   EStdout (Time_elapsed (clock w 1 - clock w 0) (bandwidth args) (hq args)
                         (lm args) (device_of w args))].
Proof. intros T. unfold closing. now rewrite T. Qed.

(* ===================================================================== *)
(** ** The order of the fatal checks *)
(* ===================================================================== *)

Lemma decode_stage_ends (o : Path) (args : Args) (d : Device) :
  forallb is_clipping (stderr_lines (fst (decode_stage o args d))) = true
  /\ snd (decode_stage o args d) = Ok tt.
Proof.
  unfold decode_stage. cbn [fst snd stderr_lines].
  rewrite playback_stderr. cbv zeta.
  now destruct (negb (rescale args) && _).
Qed.

(** The encode stage: the bandwidth check, then a run to completion. *)
Lemma encode_stage_ends (o : Path) (args : Args) (d : Device) :
  str_in (Str.lower (PathOps.suffix o)) [SUFFIX; ".wav"; ".pt"] = true ->
  if negb (bandwidth_in (bandwidth args)
             (target_bandwidths (MODELS (model_name_of args))))
  then stderr_lines (fst (encode_stage o args d))
       = [Bandwidth_unsupported (bandwidth args) (model_name_of args)]
       /\ snd (encode_stage o args d) = Exit 1
  else forallb is_clipping (stderr_lines (fst (encode_stage o args d))) = true
       /\ snd (encode_stage o args d) = Ok tt.
Proof.
  intros L. unfold encode_stage. cbv zeta.
  destruct (negb (bandwidth_in _ _)); [split; reflexivity|].
  unfold str_in in L. cbn [existsb] in L.
  destruct (Str.lower (PathOps.suffix o) =? SUFFIX); [split; reflexivity|].
  destruct (Str.lower (PathOps.suffix o) =? ".pt"); [split; reflexivity|].
  destruct (Str.lower (PathOps.suffix o) =? ".wav"); [|discriminate L].
  cbn [fst snd app stderr_lines]. rewrite playback_stderr. cbv zeta.
  now destruct (negb (rescale args) && _).
Qed.

(** [check_output_exists] and what follows it end as the checks on the
    directory and on the output say, then as the rest does. *)
Lemma guarded_ends (w : World) (o : Path) (args : Args) (rest : M unit)
      (then_ : option check) :
  match then_ with
  | Some c => stderr_lines (fst rest) = [message_of args o c]
              /\ snd rest = Exit 1
  | None => forallb is_clipping (stderr_lines (fst rest)) = true
            /\ snd rest = Ok tt
  end ->
  match (if fails w args o Chk_out_dir then Some Chk_out_dir
         else if fails w args o Chk_out_exists then Some Chk_out_exists
         else then_) with
  | Some c => stderr_lines (fst (guarded w o args rest))
              = [message_of args o c]
              /\ snd (guarded w o args rest) = Exit 1
  | None => forallb is_clipping (stderr_lines (fst (guarded w o args rest)))
            = true
            /\ snd (guarded w o args rest) = Ok tt
  end.
Proof.
  intros R. rewrite guarded_stderr, guarded_result. cbn [fails].
  destruct (negb (path_exists w (PathOps.parent o))); [split; reflexivity|].
  destruct (path_exists w o && negb (force args)); [split; reflexivity|].
  exact R.
Qed.

(** C1, as the program has it.  The fatal checks come in this order:
    the input exists; the extension of an explicit output is legal for
    the branch (compression: one of the three kinds; decompression:
    [.wav]); the parent directory of the output exists; the output does
    not exist unless [--force]; for compression, the bandwidth is
    supported.  When several fail, the line printed and the exit taken are
    those of the earliest in this order; when none fails the run
    completes. *)
Theorem C1_checks_in_program_order (w : World) (args : Args) (o : Path) :
  Plan.effective_output args = Some o ->
  ends_as w program_order args o (main w args).
Proof.
  intros Ho. unfold ends_as, first_failure, program_order.
  rewrite main_stderr, main_result.
  cbn [find fails].
  destruct (negb (path_exists w (input args))); [split; reflexivity|].
  unfold Plan.effective_output, Plan.default_output in Ho.
  unfold pipeline_flat, decompression_flat, compression_flat.
  destruct (Plan.is_decompress args) eqn:Hd; cbn [negb andb].
  - assert (G := fun t => guarded_ends w o args
                            (decode_stage o args (device_of w args)) t).
    specialize (G None (decode_stage_ends o args _)).
    cbn [fails] in G.
    destruct (output args) as [o'|].
    + injection Ho as ->.
      destruct (negb (Str.lower (PathOps.suffix o) =? ".wav"));
        [split; reflexivity|exact G].
    + rewrite Ho, (default_wav_suffix args o Ho).
      change (".wav" =? ".wav") with true. exact G.
  - assert (G : str_in (Str.lower (PathOps.suffix o)) [SUFFIX; ".wav"; ".pt"]
                = true ->
                match
                  (if fails w args o Chk_out_dir then Some Chk_out_dir
                   else if fails w args o Chk_out_exists
                        then Some Chk_out_exists
                        else if fails w args o Chk_bandwidth
                             then Some Chk_bandwidth else None)
                with
                | Some c =>
                    stderr_lines
                      (fst (guarded w o args
                              (encode_stage o args (device_of w args))))
                    = [message_of args o c]
                    /\ snd (guarded w o args
                              (encode_stage o args (device_of w args)))
                       = Exit 1
                | None =>
                    forallb is_clipping
                      (stderr_lines
                         (fst (guarded w o args
                                 (encode_stage o args (device_of w args)))))
                    = true
                    /\ snd (guarded w o args
                              (encode_stage o args (device_of w args)))
                       = Ok tt
                end).
    { intros L.
      apply (guarded_ends w o args _
               (if fails w args o Chk_bandwidth
                then Some Chk_bandwidth else None)).
      pose proof (encode_stage_ends o args (device_of w args) L) as E.
      cbn [fails]. rewrite Hd. cbn [negb andb].
      destruct (negb (bandwidth_in _ _)); exact E. }
    cbn [fails] in G. rewrite Hd in G. cbn [negb andb] in G.
    destruct (output args) as [o'|].
    + injection Ho as ->.
      destruct (str_in _ _); cbn [negb]; [|split; reflexivity].
      exact (G eq_refl).
    + rewrite Ho. pose proof (default_ecdc_suffix args o Ho) as S.
      rewrite S in *. change (str_in (Str.lower SUFFIX) _) with true in *.
      cbn [negb]. exact (G eq_refl).
Qed.

(* ===================================================================== *)
(** ** The embedding pipeline *)
(* ===================================================================== *)

Lemma never_guarded_cons (w : World) (k : event -> bool) (o : Path)
      (args : Args) (rest : M unit) :
  quiet k -> never k (fst rest) = true ->
  never k (fst (guarded w o args rest)) = true.
Proof.
  intros Q R. rewrite guarded_never by assumption. rewrite R.
  apply orb_true_r.
Qed.

(** C2, as the program has it.  Compression to an embedding file (the
    output has the extension [.pt], case ignored): the decoder never runs
    and no bitstream is written; and when no check fails the run is: load
    the waveform, resample it, run the full encoder on it (the payload is
    not used afterwards), run the embedding encoder on the same resampled
    waveform, save the embedding to the output path. *)
Theorem C2_embedding_run (w : World) (args : Args) (o : Path) :
  Plan.is_decompress args = false ->
  output args = Some o ->
  Str.lower (PathOps.suffix o) = ".pt" ->
  never is_decode (fst (main w args)) = true
  /\ never is_bitstream_write (fst (main w args)) = true
  /\ (first_failure w program_order args o = None ->
      let device := device_of w args in
      let model :=
        set_target_bandwidth (MODELS (model_name_of args)) (bandwidth args) in
      let loaded := torchaudio_load (input args) in
      let wav := convert_audio (fst loaded) (snd loaded)
                   (sample_rate model) (channels model) in
      let x := to_device (unsqueeze0 wav) device in
      main w args =
      ((opening args
        ++ [EExists (PathOps.parent o); EExists o;
            EModelNew (model_name_of args); ESetBandwidth (bandwidth args);
            ELoad (input args);
            EConvert (fst loaded) (snd loaded) (sample_rate model)
                     (channels model);
            ECompress model wav (lm args) device;
            EEncoder model x;
            ETorchSave (squeeze0_cpu (encoder model x)) (Some o)]
        ++ closing w args)%list, Ok tt)).
Proof.
  intros Hd Ho Hx.
  assert (E : forall d,
    encode_stage o args d =
    if negb (bandwidth_in (bandwidth args)
               (target_bandwidths (MODELS (model_name_of args))))
    then ([EModelNew (model_name_of args);
           EStderr (Bandwidth_unsupported (bandwidth args)
                      (model_name_of args))], Exit 1)
    else
      let model :=
        set_target_bandwidth (MODELS (model_name_of args)) (bandwidth args) in
      let loaded := torchaudio_load (input args) in
      let wav := convert_audio (fst loaded) (snd loaded)
                   (sample_rate model) (channels model) in
      let x := to_device (unsqueeze0 wav) d in
      ([EModelNew (model_name_of args); ESetBandwidth (bandwidth args);
        ELoad (input args);
        EConvert (fst loaded) (snd loaded) (sample_rate model)
                 (channels model);
        ECompress model wav (lm args) d;
        EEncoder model x;
        ETorchSave (squeeze0_cpu (encoder model x)) (Some o)], Ok tt)).
  { intros d. unfold encode_stage. cbv zeta. rewrite Hx.
    destruct (negb (bandwidth_in _ _)); reflexivity. }
  assert (P : pipeline_flat w args
              = guarded w o args (encode_stage o args (device_of w args))).
  { unfold pipeline_flat, compression_flat. rewrite Hd, Ho, Hx. reflexivity. }
  split; [|split].
  - rewrite main_never, P by quiet_kind.
    rewrite never_guarded_cons; [apply orb_true_r|quiet_kind|].
    rewrite E. now destruct (negb (bandwidth_in _ _)).
  - rewrite main_never, P by quiet_kind.
    rewrite never_guarded_cons; [apply orb_true_r|quiet_kind|].
    rewrite E. now destruct (negb (bandwidth_in _ _)).
  - unfold first_failure, program_order. cbn [find fails].
    rewrite Hd, Hx. cbn [negb andb].
    change (str_in ".pt" [SUFFIX; ".wav"; ".pt"]) with true. cbn [negb].
    intros V. rewrite main_is_flat. unfold main_flat. rewrite P.
    unfold guarded. rewrite E.
    destruct (negb (path_exists w (input args))); [discriminate V|].
    destruct (negb (path_exists w (PathOps.parent o))); [discriminate V|].
    destruct (path_exists w o && negb (force args)); [discriminate V|].
    destruct (negb (bandwidth_in _ _)); [discriminate V|].
    reflexivity.
Qed.

(* ===================================================================== *)
(** ** The default output of decompression *)
(* ===================================================================== *)

Lemma append_assoc (a b c : string) : (a ++ b) ++ c = a ++ (b ++ c).
Proof. induction a as [|x a IH]; simpl; [reflexivity|now rewrite IH]. Qed.

Lemma append_nonempty (a b : string) : a <> "" -> a ++ b <> "".
Proof. destruct a; [congruence|discriminate]. Qed.

Lemma decompress_input_has_name (args : Args) :
  Plan.is_decompress args = true -> PathOps.name (input args) <> "".
Proof.
  unfold Plan.is_decompress, PathOps.suffix. intros H N. rewrite N in H.
  discriminate H.
Qed.

Lemma name_sibling (p : Path) (n : string) : PathOps.name (sibling p n) = n.
Proof. apply PathFacts.name_replaced. Qed.

(** C3, as the program has it.  Decompression without an output, when
    neither the stem of the input nor the decompress-suffix contains a dot
    or a separator: the output is the file next to the input whose name
    is the stem, then the suffix, then [.wav].  The suffix is appended
    once whatever the stem ends with; a stem that already ends with the
    suffix is followed by it a second time. *)
Theorem C3_default_wav_name (args : Args) :
  Plan.is_decompress args = true ->
  output args = None ->
  Str.contains "." (PathOps.stem (input args) ++ decompress_suffix args)
  = false ->
  Str.contains "/" (PathOps.stem (input args) ++ decompress_suffix args)
  = false ->
  Plan.effective_output args
  = Some (sibling (input args)
            (PathOps.stem (input args) ++ decompress_suffix args ++ ".wav"))
  /\ forall x, PathOps.stem (input args) = x ++ decompress_suffix args ->
       Plan.effective_output args
       = Some (sibling (input args)
                 (x ++ decompress_suffix args ++ decompress_suffix args
                  ++ ".wav")).
Proof.
  intros Hd Ho Hdot Hsep.
  pose proof (decompress_input_has_name args Hd) as Hn.
  assert (E : Plan.effective_output args
              = Some (sibling (input args)
                        (PathOps.stem (input args) ++ decompress_suffix args
                         ++ ".wav"))).
  { unfold Plan.effective_output, Plan.default_output, Plan.default_wav.
    rewrite Ho, Hd.
    set (n := PathOps.stem (input args) ++ decompress_suffix args) in *.
    assert (Nn : n <> "").
    { apply append_nonempty, PathFacts.stem_nonempty, Hn. }
    unfold PathOps.with_name.
    apply String.eqb_neq in Hn. rewrite Hn.
    unfold PathOps.valid_name. rewrite Hsep.
    apply String.eqb_neq in Nn. rewrite Nn.
    assert (Nd : (n =? ".") = false).
    { apply String.eqb_neq. intros D. rewrite D in Hdot. discriminate Hdot. }
    rewrite Nd. cbn [negb andb].
    unfold PathOps.with_suffix.
    change (PathOps.valid_suffix ".wav") with true. cbn [negb].
    rewrite PathFacts.name_replaced, Nn.
    cbn [anchor parts]. rewrite removelast_last.
    rewrite (proj2 (PathFacts.split_name_no_dot n Hdot)).
    unfold sibling, n. now rewrite append_assoc. }
  split; [exact E|].
  intros x Hx. rewrite E, Hx. now rewrite append_assoc.
Qed.

End Claims.

(* ===================================================================== *)
(** ** Worked runs *)
(* ===================================================================== *)

Module Runs.
Import Toy.

(** C1 as listed fails here: the input exists, the directory of the output
    does not and its extension is illegal.  By the listed order the line
    would be the one about the output folder; [main] prints the one about
    the extension. *)
Lemma C1_listed_order_refuted :
  Plan.effective_output order_args = Some order_out
  /\ first_failure (C := toy 1) order_world listed_order order_args order_out
     = Some Chk_out_dir
  /\ stderr_lines (fst (run 1 order_world order_args))
     = [Output_ext_compress ".ecdc"]
  /\ ~ ends_as (C := toy 1) order_world listed_order order_args order_out
         (run 1 order_world order_args).
Proof.
  refine (conj eq_refl (conj eq_refl (conj eq_refl _))).
  unfold ends_as.
  change (first_failure (C := toy 1) order_world listed_order order_args
            order_out) with (Some Chk_out_dir).
  intros [H _]. vm_compute in H. discriminate H.
Qed.

Lemma C1_witness :
  Plan.effective_output order_args = Some order_out
  /\ ends_as (C := toy 1) order_world program_order order_args order_out
       (main (C := toy 1) order_world order_args).
Proof.
  split; [reflexivity|].
  apply (C1_checks_in_program_order (C := toy 1) order_world order_args
           order_out).
  reflexivity.
Defined.

(** C2 as stated fails here: the run to [sample.pt] completes and its
    trace holds a call of the full encoder. *)
Lemma C2_full_encoder_runs :
  Plan.is_decompress emb_args = false
  /\ snd (run 1 emb_world emb_args) = Ok tt
  /\ In (ECompress (C := toy 1) ("encodec_24khz", 6%Q) 1%Q false Cpu)
        (fst (run 1 emb_world emb_args))
  /\ embedding_only (fst (run 1 emb_world emb_args)) = false.
Proof.
  refine (conj eq_refl (conj eq_refl (conj _ eq_refl))).
  vm_compute. do 7 right. left. reflexivity.
Qed.

Lemma C2_witness :
  Plan.is_decompress emb_args = false
  /\ output emb_args = Some emb_out
  /\ Str.lower (PathOps.suffix emb_out) = ".pt"
  /\ never is_decode (fst (main (C := toy 1) emb_world emb_args)) = true
  /\ never is_bitstream_write (fst (main (C := toy 1) emb_world emb_args))
     = true.
Proof.
  pose proof (C2_embedding_run (C := toy 1) emb_world emb_args emb_out
                eq_refl eq_refl eq_refl) as (D & B & _).
  exact (conj eq_refl (conj eq_refl (conj eq_refl (conj D B)))).
Defined.

(** C3 as stated fails here.  The stem [foo_decompressed] already ends
    with the suffix and the output name holds the suffix twice; the stem
    [a.b_decompressed] has a dot, [with_suffix] cuts the name at it and the
    suffix is gone. *)
Lemma C3_suffix_twice_or_lost :
  (Plan.is_decompress again_args = true
   /\ Str.ends_with (decompress_suffix again_args)
        (PathOps.stem (input again_args)) = true
   /\ option_map PathOps.name (Plan.default_output again_args)
      = Some "foo_decompressed_decompressed.wav"
   /\ ~ suffix_exactly_once again_args)
  /\ (Plan.is_decompress dotted_args = true
      /\ Str.ends_with (decompress_suffix dotted_args)
           (PathOps.stem (input dotted_args)) = true
      /\ option_map PathOps.name (Plan.default_output dotted_args)
         = Some "a.wav"
      /\ ~ suffix_exactly_once dotted_args).
Proof.
  split; refine (conj eq_refl (conj eq_refl (conj eq_refl _))).
  - intros [_ H]. vm_compute in H. discriminate H.
  - intros [H _]. vm_compute in H. discriminate H.
Qed.

Lemma C3_witness :
  Plan.is_decompress again_args = true
  /\ output again_args = None
  /\ Plan.effective_output again_args
     = Some (sibling (input again_args)
               ("foo" ++ "_decompressed" ++ "_decompressed" ++ ".wav")).
Proof.
  refine (conj eq_refl (conj eq_refl _)).
  apply (proj2 (C3_default_wav_name again_args eq_refl eq_refl eq_refl
                  eq_refl) "foo").
  reflexivity.
Defined.

Lemma C5_witness :
  Plan.is_decompress mp3_args = true
  /\ output mp3_args = Some mp3_out
  /\ Str.eq_nocase (PathOps.suffix mp3_out) ".wav" = false
  /\ exit_status (snd (main (C := toy 1) mp3_world mp3_args)) <> 0%Z
  /\ never reads_input (fst (main (C := toy 1) mp3_world mp3_args)) = true.
Proof.
  pose proof (C5_decompress_needs_wav (C := toy 1) mp3_world mp3_args mp3_out
                eq_refl eq_refl eq_refl) as (S & _ & R).
  exact (conj eq_refl (conj eq_refl (conj eq_refl (conj S R)))).
Defined.

Lemma C6_witness :
  Plan.effective_output taken_args = Some taken_out
  /\ path_exists taken_world taken_out = true
  /\ force taken_args = false
  /\ exit_status (snd (main (C := toy 1) taken_world taken_args)) <> 0%Z
  /\ never writes_file (fst (main (C := toy 1) taken_world taken_args)) = true
  /\ never codec_operation (fst (main (C := toy 1) taken_world taken_args))
     = true.
Proof.
  refine (conj eq_refl (conj eq_refl (conj eq_refl _))).
  apply (C6_no_overwrite_without_force (C := toy 1) taken_world taken_args
           taken_out); reflexivity.
Defined.

Lemma C7_witness :
  Plan.is_decompress hq_args = false
  /\ bandwidth_in (bandwidth hq_args)
       (target_bandwidths (Codec := toy 1)
          (MODELS (Codec := toy 1) (model_name_of hq_args))) = false
  /\ exit_status (snd (main (C := toy 1) emb_world hq_args)) <> 0%Z
  /\ never load_or_encode (fst (main (C := toy 1) emb_world hq_args)) = true.
Proof.
  refine (conj eq_refl (conj eq_refl _)).
  apply (C7_unsupported_bandwidth (C := toy 1) emb_world hq_args);
    reflexivity.
Defined.

(** C8 as stated fails here: the bitstream decodes to a peak of
    4152361/4194304, the single-precision number next to 0.99.  The peak
    exceeds 0.99 and [--rescale] is not given, yet the run prints no
    warning; the waveform is saved all the same. *)
Lemma C8_no_warning_just_above_limit :
  never is_decode
    (fst (main (C := toy (4152361 # 4194304)) loud_world loud_args)) = false
  /\ rescale loud_args = false
  /\ (99 # 100
      < abs_max (Codec := toy (4152361 # 4194304))
          (fst (decompress (Codec := toy (4152361 # 4194304))
                  (read_bytes (Codec := toy (4152361 # 4194304))
                     (input loud_args)) Cpu)))%Q
  /\ stderr_lines
       (fst (main (C := toy (4152361 # 4194304)) loud_world loud_args)) = []
  /\ snd (main (C := toy (4152361 # 4194304)) loud_world loud_args) = Ok tt.
Proof.
  refine (conj eq_refl (conj eq_refl (conj _ (conj eq_refl eq_refl)))).
  reflexivity.
Qed.

Lemma C8_witness :
  never is_decode (fst (main (C := toy (12 # 10)) loud_world loud_args))
  = false
  /\ stderr_lines (fst (main (C := toy (12 # 10)) loud_world loud_args))
     = [Clipping (12 # 10) (99 # 100)]
  /\ snd (main (C := toy (12 # 10)) loud_world loud_args) = Ok tt.
Proof.
  destruct (C8_clipping_warns_never_blocks (C := toy (12 # 10)) loud_world
              loud_args eq_refl)
    as (payload & o & before & _ & _ & _ & _ & _ & _ & K).
  exact (conj eq_refl (conj eq_refl K)).
Defined.

Lemma C10_witness :
  Plan.is_decompress timed_args = true
  /\ without_report
       (fst (main (C := toy 1) loud_world
               (set_codec_flags timed_args (3 # 2) true true)))
     = without_report (fst (main (C := toy 1) loud_world timed_args)).
Proof.
  split; [reflexivity|].
  apply (C10_decompress_ignores_codec_flags (C := toy 1) loud_world
           timed_args (3 # 2) true true eq_refl).
Defined.

(** With [--time] the two runs of the last lemma do differ, in the report
    line only. *)
Lemma report_line_differs :
  fst (main (C := toy 1) loud_world
         (set_codec_flags timed_args (3 # 2) true true))
  <> fst (main (C := toy 1) loud_world timed_args).
Proof. vm_compute. intros H. discriminate H. Qed.

End Runs.

(* ===================================================================== *)
(** ** Further properties of the driver *)
(* ===================================================================== *)

Section More.

Context {C : Codec}.

Ltac quiet_kind := unfold quiet; repeat split.

(** Every way through the flat reading, one goal per way. *)
Ltac walk :=
  rewrite ?main_is_flat;
  unfold main_flat, pipeline_flat, decompression_flat, compression_flat,
    guarded, decode_stage, encode_stage;
  cbv zeta;
  repeat (cbn [fst snd exit_status Z.eqb andb];
          match goal with
          | |- context [match ?x with _ => _ end] =>
              lazymatch x with
              | context [match _ with _ => _ end] => fail
              | _ => destruct x eqn:?
              end
          end);
  cbn [fst snd exit_status Z.eqb andb].

(** Observations along the blocks of the flat reading. *)
Lemma seen_opening {A} (f : event -> list A) (args : Args) :
  f ETime = [] -> f ECudaQuery = [] -> (forall p, f (EExists p) = []) ->
  flat_map f (opening args) = [].
Proof.
  intros T Q E. unfold opening.
  destruct (time args), (gpu args); cbn; rewrite ?T, ?Q, ?E; reflexivity.
Qed.

Lemma seen_playback {A} (f : event -> list A) (payload : Payload)
      (o : Path) (args : Args) (d : Device) :
  (forall m, f (EStderr m) = []) ->
  flat_map f (playback payload o args d)
  = (f (EDecompress payload d)
     ++ f (ESaveAudio
             (if gpu args then cpu (fst (decompress payload d))
              else fst (decompress payload d))
             (Some o) (snd (decompress payload d)) (rescale args)))%list.
Proof.
  intros S. unfold playback, clipping_lines. cbv zeta.
  destruct (rescale args); [cbn; now rewrite app_nil_r|].
  destruct (negb (Qle_bool _ _)); cbn; rewrite ?S, ?app_nil_r; reflexivity.
Qed.

Lemma seen_closing (w : World) {A} (f : event -> list A) (args : Args) :
  f ETime = [] ->
  flat_map f (closing w args)
  = if time args
    then f (EStdout (Time_elapsed (clock w 1 - clock w 0) (bandwidth args)
                       (hq args) (lm args) (device_of w args)))
    else [].
Proof.
  intros T. unfold closing.
  destruct (time args); cbn; rewrite ?T, ?app_nil_r; reflexivity.
Qed.

(** Rewrites an observation of a walked trace into a list. *)
Ltac observe f :=
  unfold writes_of, reads_of, stdout_lines, devices_of, models_of,
    decoded_of;
  repeat first
    [ rewrite flat_map_app
    | rewrite (seen_opening f) by (intros; reflexivity)
    | rewrite (seen_playback f) by (intros; reflexivity)
    | rewrite (seen_closing _ f) by (intros; reflexivity)
    | progress cbn [flat_map app written read printed device_given
                      model_given payload_decoded] ].


(** The way of the flat reading on which the [assert] fails is never
    taken. *)
Ltac unreachable :=
  exfalso;
  match goal with
  | H : negb (str_in ?s _) = false,
    A : (?s =? SUFFIX) = false,
    B : (?s =? ".pt") = false,
    D : (?s =? ".wav") = false |- _ =>
      unfold str_in in H; cbn [existsb] in H; rewrite A, B, D in H;
      discriminate H
  | H : Plan.default_ecdc ?a = Some ?p,
    A : (Str.lower (PathOps.suffix ?p) =? SUFFIX) = false |- _ =>
      rewrite (default_ecdc_suffix a p H) in A; discriminate A
  end.


(** X4.  The elapsed-time report is printed exactly when [--time] is given and
    the run completes; it is the only line on the standard output, and it
    shows the difference of the two clock readings, the bandwidth, the two
    codec flags and the device.  An exit through [fatal] or an exception
    prints no report. *)
Theorem report_only_on_completion (w : World) (args : Args) :
  stdout_lines (fst (main w args))
  = if time args && (exit_status (snd (main w args)) =? 0)%Z
    then [Time_elapsed (clock w 1 - clock w 0) (bandwidth args) (hq args)
                       (lm args) (device_of w args)]
    else [].
Proof.
  walk; observe (@printed C); rewrite ?app_nil_r, ?andb_false_r;
    try reflexivity;
    try (exfalso; cbn [andb] in *; congruence).
  all: destruct (time args); cbn [andb] in *; congruence.
Qed.

(** X5.  Every call of the codec gets the same device: CUDA when [--gpu] is
    given and CUDA is available, the CPU otherwise. *)
Theorem one_device_for_all_codec_calls (w : World) (args : Args) :
  Forall (fun d => d = if gpu args && cuda_is_available w then Cuda else Cpu)
         (devices_of (fst (main w args))).
Proof.
  assert (D : device_of w args
              = if gpu args && cuda_is_available w then Cuda else Cpu).
  { unfold device_of. now destruct (gpu args). }
  rewrite <- D.
  walk; observe (@device_given C); rewrite ?app_nil_r;
    repeat constructor.
  all: destruct (time args); repeat constructor.
Qed.

(** X6.  Every call of an encoder gets the model of the selected name with its
    target bandwidth set to the requested one, and that bandwidth is one
    the model supports. *)
Theorem encoder_runs_on_configured_model (w : World) (args : Args) :
  Forall (fun m =>
            m = set_target_bandwidth (MODELS (model_name_of args))
                  (bandwidth args)
            /\ bandwidth_in (bandwidth args)
                 (target_bandwidths (MODELS (model_name_of args))) = true)
         (models_of (fst (main w args))).
Proof.
  walk; observe (@model_given C); rewrite ?app_nil_r;
    repeat match goal with
           | H : negb _ = false |- _ => apply negb_false_iff in H
           end;
    repeat constructor; try assumption.
  all: destruct (time args); repeat constructor; assumption.
Qed.

(** The pipeline of an invocation whose output path is [o], by the
    checks: the two extension checks, then [check_output_exists], then the
    stage of the branch. *)
Lemma pipeline_by_checks (w : World) (args : Args) (o : Path) :
  Plan.effective_output args = Some o ->
  pipeline_flat w args =
  if fails w args o Chk_extension
  then ([EStderr (Output_ext_compress SUFFIX)], Exit 1)
  else if fails w args o Chk_wav
       then ([EStderr Output_ext_wav], Exit 1)
       else guarded w o args
              (if Plan.is_decompress args
               then decode_stage o args (device_of w args)
               else encode_stage o args (device_of w args)).
Proof.
  unfold Plan.effective_output, Plan.default_output, pipeline_flat,
    decompression_flat, compression_flat.
  cbn [fails].
  destruct (Plan.is_decompress args), (output args) as [o'|];
    cbn [negb andb]; intros Ho.
  - injection Ho as ->. reflexivity.
  - rewrite Ho, (default_wav_suffix args o Ho). reflexivity.
  - injection Ho as ->. reflexivity.
  - rewrite Ho, (default_ecdc_suffix args o Ho). reflexivity.
Qed.

(** When no check fails, each of them passes. *)
Lemma all_checks_pass (w : World) (args : Args) (o : Path) :
  first_failure w program_order args o = None ->
  path_exists w (input args) = true
  /\ fails w args o Chk_extension = false
  /\ fails w args o Chk_wav = false
  /\ path_exists w (PathOps.parent o) = true
  /\ path_exists w o && negb (force args) = false
  /\ fails w args o Chk_bandwidth = false.
Proof.
  unfold first_failure, program_order. intros V.
  pose proof (find_none _ _ V) as F.
  assert (I := F Chk_input). assert (E := F Chk_extension).
  assert (W := F Chk_wav). assert (D := F Chk_out_dir).
  assert (X := F Chk_out_exists). assert (B := F Chk_bandwidth).
  cbn [In] in *. cbn [fails] in I, D, X.
  repeat split; try (apply negb_false_iff); auto 10.
Qed.

(** Where a validated run stands when its stage begins. *)
Lemma validated_main (w : World) (args : Args) (o : Path) :
  Plan.effective_output args = Some o ->
  first_failure w program_order args o = None ->
  main w args =
  let stage := if Plan.is_decompress args
               then decode_stage o args (device_of w args)
               else encode_stage o args (device_of w args) in
  match snd stage with
  | Ok _ =>
      ((opening args
        ++ (EExists (PathOps.parent o) :: EExists o :: fst stage)
        ++ closing w args)%list, Ok tt)
  | r =>
      ((opening args
        ++ (EExists (PathOps.parent o) :: EExists o :: fst stage))%list, r)
  end.
Proof.
  intros Ho V.
  destruct (all_checks_pass w args o V) as (I & E & W & D & X & _).
  rewrite main_is_flat. unfold main_flat.
  rewrite (pipeline_by_checks w args o Ho), I, E, W.
  unfold guarded. rewrite D, X. reflexivity.
Qed.

(** X7.  A decompression on which no check fails: the bytes of the input are
    read and decoded on the chosen device, the clipping check looks at
    the decoded waveform, and the waveform (moved to the CPU under
    [--gpu]) is saved at the output path with the sample rate the decoder
    returned and the [--rescale] flag. *)
Theorem decompression_run (w : World) (args : Args) (o : Path) :
  Plan.is_decompress args = true ->
  Plan.effective_output args = Some o ->
  first_failure w program_order args o = None ->
  let device := device_of w args in
  let payload := read_bytes (input args) in
  let out := fst (decompress payload device) in
  let out_sample_rate := snd (decompress payload device) in
  main w args =
  ((opening args
    ++ [EExists (PathOps.parent o); EExists o;
        EReadBytes (input args); EDecompress payload device]
    ++ clipping_lines out args
    ++ [ESaveAudio (if gpu args then cpu out else out) (Some o)
                   out_sample_rate (rescale args)]
    ++ closing w args)%list, Ok tt).
Proof.
  intros Hd Ho V. cbv zeta.
  rewrite (validated_main w args o Ho V), Hd. cbv zeta.
  unfold decode_stage, playback. cbn [fst snd app].
  now rewrite <- !app_assoc.
Qed.

(** X8.  A compression to a bitstream on which no check fails: the model is
    built and configured, the input is loaded and converted to the rate
    and channels of the model, the encoder runs with the [--lm] flag on
    the chosen device, and its payload is written as it is at the output
    path.  Nothing is decoded, no embedding is computed and the clipping
    check does not run. *)
Theorem bitstream_run (w : World) (args : Args) (o : Path) :
  Plan.is_decompress args = false ->
  Plan.effective_output args = Some o ->
  Str.lower (PathOps.suffix o) = SUFFIX ->
  first_failure w program_order args o = None ->
  let device := device_of w args in
  let model :=
    set_target_bandwidth (MODELS (model_name_of args)) (bandwidth args) in
  let loaded := torchaudio_load (input args) in
  let wav := convert_audio (fst loaded) (snd loaded)
               (sample_rate model) (channels model) in
  main w args =
  ((opening args
    ++ [EExists (PathOps.parent o); EExists o;
        EModelNew (model_name_of args); ESetBandwidth (bandwidth args);
        ELoad (input args);
        EConvert (fst loaded) (snd loaded) (sample_rate model)
                 (channels model);
        ECompress model wav (lm args) device;
        EWriteBytes o (compress model wav (lm args) device)]
    ++ closing w args)%list, Ok tt).
Proof.
  intros Hd Ho Hx V. cbv zeta.
  destruct (all_checks_pass w args o V) as (_ & _ & _ & _ & _ & B).
  cbn [fails] in B. rewrite Hd in B. cbn [negb andb] in B.
  rewrite (validated_main w args o Ho V), Hd. cbv zeta.
  unfold encode_stage. cbv zeta. rewrite B, Hx.
  reflexivity.
Qed.

(** X9.  A compression to a [.wav] output on which no check fails: the
    payload the encoder returned is decoded at once, on the same device;
    the clipping check looks at the decoded waveform, which is then saved
    at the output path.  The payload itself is written nowhere. *)
Theorem round_trip_run (w : World) (args : Args) (o : Path) :
  Plan.is_decompress args = false ->
  Plan.effective_output args = Some o ->
  Str.lower (PathOps.suffix o) = ".wav" ->
  first_failure w program_order args o = None ->
  let device := device_of w args in
  let model :=
    set_target_bandwidth (MODELS (model_name_of args)) (bandwidth args) in
  let loaded := torchaudio_load (input args) in
  let wav := convert_audio (fst loaded) (snd loaded)
               (sample_rate model) (channels model) in
  let compressed := compress model wav (lm args) device in
  let out := fst (decompress compressed device) in
  let out_sample_rate := snd (decompress compressed device) in
  main w args =
  ((opening args
    ++ [EExists (PathOps.parent o); EExists o;
        EModelNew (model_name_of args); ESetBandwidth (bandwidth args);
        ELoad (input args);
        EConvert (fst loaded) (snd loaded) (sample_rate model)
                 (channels model);
        ECompress model wav (lm args) device;
        EDecompress compressed device]
    ++ clipping_lines out args
    ++ [ESaveAudio (if gpu args then cpu out else out) (Some o)
                   out_sample_rate (rescale args)]
    ++ closing w args)%list, Ok tt).
Proof.
  intros Hd Ho Hx V. cbv zeta.
  destruct (all_checks_pass w args o V) as (_ & _ & _ & _ & _ & B).
  cbn [fails] in B. rewrite Hd in B. cbn [negb andb] in B.
  rewrite (validated_main w args o Ho V), Hd. cbv zeta.
  unfold encode_stage. cbv zeta. rewrite B, Hx.
  change (".wav" =? SUFFIX) with false.
  change (".wav" =? ".pt") with false.
  change (".wav" =? ".wav") with true.
  unfold playback. cbn [fst snd app].
  now rewrite <- !app_assoc.
Qed.

(** X1.  An input that does not exist stops the run at once: after the
    optional clock reading, the existence test and the line about the
    input are the only events, and the status is 1.  CUDA is not queried,
    no output path is tested, no model is built. *)
Theorem missing_input_stops_at_once (w : World) (args : Args) :
  path_exists w (input args) = false ->
  main w args =
  (((if time args then [ETime] else [])
    ++ [EExists (input args); EStderr (Input_missing (input args))])%list,
   Exit 1).
Proof.
  intros H. rewrite main_is_flat. unfold main_flat. now rewrite H.
Qed.

(** X10.  The only exception that escapes [main] is the [ValueError] of
    [pathlib] while the default output is built: no output was given, the
    default could not be formed, nothing is on the error stream and no
    work of a pipeline was done.  In particular [args.output] is never
    [None] where an attribute of it is taken, and the [assert] holds. *)
Theorem only_value_error_escapes (w : World) (args : Args) (e : exn) :
  snd (main w args) = Raise e ->
  e = ValueError
  /\ output args = None
  /\ Plan.default_output args = None
  /\ stderr_lines (fst (main w args)) = []
  /\ never pipeline_work (fst (main w args)) = true.
Proof.
  unfold Plan.default_output.
  walk; intros R; try discriminate R; try unreachable;
    injection R as <-;
    rewrite stderr_lines_app, never_app, stderr_opening,
      (never_opening pipeline_work) by quiet_kind;
    repeat split; assumption.
Qed.

(** X11.  An input without a name (the working directory, the root) that exists
    and comes without an output: the default output cannot be formed and
    the run ends with a [ValueError] right after the opening events. *)
Theorem nameless_input_raises (w : World) (args : Args) :
  PathOps.name (input args) = "" ->
  output args = None ->
  path_exists w (input args) = true ->
  main w args = (opening args, Raise ValueError).
Proof.
  intros N O X.
  rewrite main_is_flat.
  unfold main_flat, pipeline_flat, compression_flat, Plan.is_decompress,
    Plan.default_ecdc, PathOps.suffix, PathOps.with_suffix.
  rewrite X, N, O. cbn. now rewrite app_nil_r.
Qed.

(** X12.  Compression without an output, for any input that has a name: the
    output is the file next to the input whose name is the stem of the
    input followed by [.ecdc]; only the last extension of the input is
    replaced, and an input without extension gets one. *)
Theorem default_bitstream_name (args : Args) :
  Plan.is_decompress args = false ->
  output args = None ->
  PathOps.name (input args) <> "" ->
  Plan.effective_output args
  = Some (sibling (input args) (PathOps.stem (input args) ++ SUFFIX))
  /\ PathOps.suffix
       (sibling (input args) (PathOps.stem (input args) ++ SUFFIX)) = SUFFIX
  /\ PathOps.stem
       (sibling (input args) (PathOps.stem (input args) ++ SUFFIX))
     = PathOps.stem (input args).
Proof.
  intros Hd Ho Hn.
  pose proof (PathFacts.split_name_extension
                (PathOps.stem (input args)) SUFFIX
                (PathFacts.stem_nonempty _ Hn) eq_refl) as [S T].
  split; [|split].
  - unfold Plan.effective_output, Plan.default_output, Plan.default_ecdc,
      PathOps.with_suffix.
    rewrite Ho, Hd. apply String.eqb_neq in Hn. rewrite Hn. reflexivity.
  - unfold PathOps.suffix. now rewrite name_sibling.
  - unfold PathOps.stem at 1. now rewrite name_sibling.
Qed.

(** The default output of decompression for a name without dot or
    separator. *)
Lemma default_wav_plain (args : Args) :
  PathOps.name (input args) <> "" ->
  Str.contains "." (PathOps.stem (input args) ++ decompress_suffix args)
  = false ->
  Str.contains "/" (PathOps.stem (input args) ++ decompress_suffix args)
  = false ->
  Plan.default_wav args
  = Some (sibling (input args)
            (PathOps.stem (input args) ++ decompress_suffix args ++ ".wav")).
Proof.
  intros Hn Hdot Hsep. unfold Plan.default_wav.
  set (n := PathOps.stem (input args) ++ decompress_suffix args) in *.
  assert (Nn : n <> "").
  { apply append_nonempty, PathFacts.stem_nonempty, Hn. }
  unfold PathOps.with_name.
  apply String.eqb_neq in Hn. rewrite Hn.
  unfold PathOps.valid_name. rewrite Hsep.
  apply String.eqb_neq in Nn. rewrite Nn.
  assert (Nd : (n =? ".") = false).
  { apply String.eqb_neq. intros D. rewrite D in Hdot. discriminate Hdot. }
  rewrite Nd. cbn [negb andb].
  unfold PathOps.with_suffix.
  change (PathOps.valid_suffix ".wav") with true. cbn [negb].
  rewrite PathFacts.name_replaced, Nn.
  cbn [anchor parts]. rewrite removelast_last.
  rewrite (proj2 (PathFacts.split_name_no_dot n Hdot)).
  unfold sibling, n. now rewrite append_assoc.
Qed.

(** X13.  Compression and then decompression, both without an output:
    the bitstream that compression writes by default is taken as a
    bitstream when it is given back as input, whatever the name of the
    first input; and when the stem and the decompress-suffix hold no dot
    and no separator, its decompression goes next to the first input,
    under the stem of the first input followed by the suffix and
    [.wav]. *)
Theorem compress_then_decompress_names (args : Args) :
  Plan.is_decompress args = false ->
  output args = None ->
  PathOps.name (input args) <> "" ->
  let o := sibling (input args) (PathOps.stem (input args) ++ SUFFIX) in
  Plan.effective_output args = Some o
  /\ Plan.is_decompress (fed_back args o) = true
  /\ (Str.contains "."
        (PathOps.stem (input args) ++ decompress_suffix args) = false ->
      Str.contains "/"
        (PathOps.stem (input args) ++ decompress_suffix args) = false ->
      Plan.effective_output (fed_back args o)
      = Some (sibling (input args)
                (PathOps.stem (input args) ++ decompress_suffix args
                 ++ ".wav"))).
Proof.
  intros Hd Ho Hn o.
  pose proof (PathFacts.split_name_extension
                (PathOps.stem (input args)) SUFFIX
                (PathFacts.stem_nonempty _ Hn) eq_refl) as [S T].
  assert (No : PathOps.name o = PathOps.stem (input args) ++ SUFFIX)
    by apply name_sibling.
  assert (So : PathOps.stem o = PathOps.stem (input args)).
  { unfold PathOps.stem at 1. now rewrite No. }
  assert (D : Plan.is_decompress (fed_back args o) = true).
  { unfold Plan.is_decompress, fed_back. cbn [input].
    unfold PathOps.suffix. now rewrite No, S. }
  split; [|split; [exact D|]].
  - unfold Plan.effective_output, Plan.default_output, Plan.default_ecdc,
      PathOps.with_suffix.
    rewrite Ho, Hd. apply String.eqb_neq in Hn. rewrite Hn. reflexivity.
  - intros Hdot Hsep.
    unfold Plan.effective_output, Plan.default_output. rewrite D.
    cbn [output fed_back].
    rewrite (default_wav_plain (fed_back args o)); cbn [input fed_back
      decompress_suffix]; rewrite ?So; try assumption.
    + subst o. unfold sibling. cbn [anchor parts].
      now rewrite removelast_last.
    + rewrite No. now apply append_nonempty, PathFacts.stem_nonempty.
Qed.

(** X14.  [check_output_exists] on an output path [o]: it lets the run go on
    exactly when the parent of [o] exists and [o] does not exist or
    [--force] is given; otherwise it exits with status 1.  The folder is
    looked at first, so a missing folder is what is reported when both
    tests would fail.  It only tests existence. *)
Theorem check_output_exists_passes_iff (w : World) (args : Args) (o : Path) :
  output args = Some o ->
  (snd (check_output_exists w args) = Ok tt <->
   path_exists w (PathOps.parent o) = true
   /\ (path_exists w o = false \/ force args = true))
  /\ (snd (check_output_exists w args) = Ok tt
      \/ snd (check_output_exists w args) = Exit 1)
  /\ stderr_lines (fst (check_output_exists w args))
     = (if negb (path_exists w (PathOps.parent o))
        then [Output_folder_missing o]
        else if path_exists w o && negb (force args)
             then [Output_exists o] else [])
  /\ never pipeline_work (fst (check_output_exists w args)) = true.
Proof.
  intros Ho.
  unfold check_output_exists, output_attr, exists_, fatal, print_stderr,
    sys_exit, emit, ret, bind.
  rewrite Ho.
  destruct (path_exists w (PathOps.parent o)), (path_exists w o),
    (force args); cbn;
    (split; [split; [intros H; try discriminate H; auto
                    |intros [H [K|K]]; try discriminate; reflexivity]
            |split; [auto|split; reflexivity]]).
Qed.

Lemma parts_eqb_eq (a b : list string) :
  Toy.parts_eqb a b = true <-> a = b.
Proof.
  revert b. induction a as [|x a IH]; intros [|y b]; cbn;
    try (split; [discriminate|discriminate]); [split; reflexivity|].
  rewrite andb_true_iff, String.eqb_eq, IH.
  split; [intros [-> ->]; reflexivity|intros [= -> ->]; auto].
Qed.

(** [Toy.path_eqb] decides the equality of paths. *)
Lemma path_eqb_eq (p q : Path) : Toy.path_eqb p q = true <-> p = q.
Proof.
  unfold Toy.path_eqb. rewrite andb_true_iff, String.eqb_eq, parts_eqb_eq.
  destruct p, q; cbn. split; [intros [-> ->]; reflexivity|].
  intros [= -> ->]. auto.
Qed.


End More.

(* ===================================================================== *)
(** ** More worked runs *)
(* ===================================================================== *)

Module MoreRuns.
Import Toy Cases.

Lemma missing_input_witness :
  path_exists empty_world (input missing_args) = false
  /\ main (C := toy 1) empty_world missing_args
     = ([EExists (rel ["missing.wav"]);
         EStderr (Input_missing (rel ["missing.wav"]))], Exit 1).
Proof.
  split; [reflexivity|].
  apply (missing_input_stops_at_once (C := toy 1) empty_world missing_args).
  reflexivity.
Defined.

Lemma only_value_error_witness :
  snd (main (C := toy 1) empty_world here_args) = Raise ValueError
  /\ output here_args = None
  /\ Plan.default_output here_args = None.
Proof.
  pose proof (only_value_error_escapes (C := toy 1) empty_world here_args
                ValueError eq_refl) as (_ & O & D & _).
  exact (conj eq_refl (conj O D)).
Defined.

Lemma nameless_input_witness :
  PathOps.name (input here_args) = ""
  /\ output here_args = None
  /\ path_exists empty_world (input here_args) = true
  /\ main (C := toy 1) empty_world here_args
     = ([EExists (rel [])], Raise ValueError).
Proof.
  refine (conj eq_refl (conj eq_refl (conj eq_refl _))).
  apply (nameless_input_raises (C := toy 1) empty_world here_args);
    reflexivity.
Defined.

Lemma default_bitstream_name_witness :
  Plan.is_decompress plain_args = false
  /\ output plain_args = None
  /\ Plan.effective_output plain_args = Some plain_out.
Proof.
  refine (conj eq_refl (conj eq_refl _)).
  apply (proj1 (default_bitstream_name plain_args eq_refl eq_refl
                  ltac:(discriminate))).
Defined.

Lemma compress_then_decompress_witness :
  Plan.is_decompress plain_args = false
  /\ output plain_args = None
  /\ PathOps.name (input plain_args) <> ""
  /\ Plan.is_decompress (fed_back plain_args plain_out) = true
  /\ Plan.effective_output (fed_back plain_args plain_out)
     = Some (rel ["sample_decompressed.wav"]).
Proof.
  assert (N : PathOps.name (input plain_args) <> "") by discriminate.
  pose proof (compress_then_decompress_names plain_args eq_refl eq_refl N)
    as (_ & D & E).
  exact (conj eq_refl (conj eq_refl (conj N
           (conj D (E eq_refl eq_refl))))).
Defined.

(** The first input may well have a dot in its stem. *)
Lemma dotted_default_selects_decompression :
  Plan.is_decompress
    (fed_back (default_args (rel ["my.song.wav"]) None)
       (rel ["my.song.ecdc"])) = true.
Proof.
  assert (N : PathOps.name (input (default_args (rel ["my.song.wav"]) None))
              <> "") by discriminate.
  apply (compress_then_decompress_names
           (default_args (rel ["my.song.wav"]) None) eq_refl eq_refl N).
Qed.

Lemma decompression_run_witness :
  Plan.is_decompress loud_args = true
  /\ Plan.effective_output loud_args = Some loud_out
  /\ first_failure (C := toy (12 # 10)) loud_world program_order loud_args
       loud_out = None
  /\ main (C := toy (12 # 10)) loud_world loud_args
     = ([EExists (rel ["loud.ecdc"]); EExists (rel []); EExists loud_out;
         EReadBytes (rel ["loud.ecdc"]);
         EDecompress (C := toy (12 # 10)) (12 # 10)%Q Cpu;
         EStderr (Clipping (12 # 10) (99 # 100));
         ESaveAudio (C := toy (12 # 10)) (12 # 10)%Q (Some loud_out)
                    24000%Z false], Ok tt).
Proof.
  refine (conj eq_refl (conj eq_refl (conj eq_refl _))).
  apply (decompression_run (C := toy (12 # 10)) loud_world loud_args
           loud_out); reflexivity.
Defined.

Lemma bitstream_run_witness :
  Plan.is_decompress plain_args = false
  /\ Plan.effective_output plain_args = Some plain_out
  /\ Str.lower (PathOps.suffix plain_out) = SUFFIX
  /\ first_failure (C := toy 1) emb_world program_order plain_args plain_out
     = None
  /\ writes_of (fst (main (C := toy 1) emb_world plain_args))
     = [Some plain_out].
Proof.
  refine (conj eq_refl (conj eq_refl (conj eq_refl (conj eq_refl _)))).
  apply (f_equal (fun m => writes_of (fst m))
           (bitstream_run (C := toy 1) emb_world plain_args plain_out
              eq_refl eq_refl eq_refl eq_refl)).
Defined.

Lemma round_trip_run_witness :
  Plan.is_decompress preview_args = false
  /\ Plan.effective_output preview_args = Some preview_out
  /\ Str.lower (PathOps.suffix preview_out) = ".wav"
  /\ first_failure (C := toy 1) emb_world program_order preview_args
       preview_out = None
  /\ decoded_of (fst (main (C := toy 1) emb_world preview_args)) = [1%Q]
  /\ writes_of (fst (main (C := toy 1) emb_world preview_args))
     = [Some preview_out].
Proof.
  pose proof (round_trip_run (C := toy 1) emb_world preview_args preview_out
                eq_refl eq_refl eq_refl eq_refl) as R.
  refine (conj eq_refl (conj eq_refl (conj eq_refl (conj eq_refl _)))).
  exact (conj (f_equal (fun m => decoded_of (fst m)) R)
              (f_equal (fun m => writes_of (fst m)) R)).
Defined.

Lemma check_output_exists_witness :
  output emb_args = Some emb_out
  /\ snd (check_output_exists (C := toy 1) emb_world emb_args) = Ok tt.
Proof.
  split; [reflexivity|].
  apply (proj1 (check_output_exists_passes_iff (C := toy 1) emb_world
                  emb_args emb_out eq_refl)).
  split; [reflexivity|left; reflexivity].
Defined.


End MoreRuns.
